(** * The translation-audit endpoint, embedded and verified

    The repository holds two variants of one HTTP handler:

    - [src/api/audit.js] (module [Audit]): checks the API credential, sends a
      system + user message pair in JSON mode, and recovers the model's JSON
      with a brace scan when the strict parse fails;
    - [src/unnamed/part_000] (module [Part000]): no credential check, one user
      message, strict parse only.

    Both share [escapeHtml] and the row / report templates.

    Conventions of the embedding.
    - A JS string is a [string]: the bytes of its UTF-8 encoding.  Every
      character the handlers search for or replace is ASCII, and a byte of a
      multi-byte character is never ASCII, so searching and replacing bytes
      agrees with searching and replacing UTF-16 code units; only [trim] has to
      know the multi-byte white space.
    - [JSON.parse], a builtin, is a field of the class [Runtime]; so is the
      wording of the engine's own error messages.
    - [fetch] is the one effect: a handler is a tree [Async] that either answers
      or asks for one upstream call and continues with its outcome. *)

From Stdlib Require Import String Ascii List Bool ZArith NArith Arith Lia.
Import ListNotations.
Open Scope string_scope.
Set Warnings "-register-all".

(** ** JS strings *)

Definition nl : string := String "010"%char EmptyString.
Definition dq : string := String "034"%char EmptyString.

(** [s.indexOf(pat)]: the first position where [pat] occurs, or -1. *)
Fixpoint indexOf (s pat : string) : Z :=
  if prefix pat s then 0%Z
  else match s with
       | EmptyString => (-1)%Z
       | String _ s' =>
           let i := indexOf s' pat in
           if (i =? -1)%Z then (-1)%Z else (i + 1)%Z
       end.

(** [s.lastIndexOf(pat)]: the last position where [pat] occurs, or -1. *)
Fixpoint lastIndexOf (s pat : string) : Z :=
  match s with
  | EmptyString => if prefix pat s then 0%Z else (-1)%Z
  | String _ s' =>
      let i := lastIndexOf s' pat in
      if (i =? -1)%Z then (if prefix pat s then 0%Z else (-1)%Z) else (i + 1)%Z
  end.

(** An index argument of [slice]: negative counts from the end, and the
    result is clamped to [0 .. len]. *)
Definition slice_bound (len i : Z) : Z :=
  if (i <? 0)%Z then Z.max (len + i) 0 else Z.min i len.

(** [s.slice(b, e)]. *)
Definition slice (s : string) (b e : Z) : string :=
  let len := Z.of_nat (String.length s) in
  let from := slice_bound len b in
  let to := slice_bound len e in
  substring (Z.to_nat from) (Z.to_nat (Z.max (to - from) 0)) s.

(** [s.replaceAll(pat, rep)] for a replacement text without [$] (a [$] would
    start a substitution pattern; the handlers' replacements have none).
    Occurrences are found left to right and do not overlap: [skip] counts the
    characters of the occurrence just replaced that are still to be passed
    over.  An empty [pat] matches before every character and at the end. *)
Fixpoint replaceAll_from (pat rep : string) (skip : nat) (s : string) : string :=
  match s with
  | EmptyString =>
      match pat with EmptyString => rep | _ => EmptyString end
  | String c s' =>
      match skip with
      | S k => replaceAll_from pat rep k s'
      | O =>
          match pat with
          | EmptyString => rep ++ String c (replaceAll_from pat rep 0 s')
          | String _ pat' =>
              if prefix pat s
              then rep ++ replaceAll_from pat rep (String.length pat') s'
              else String c (replaceAll_from pat rep 0 s')
          end
      end
  end.

Definition replaceAll (s pat rep : string) : string :=
  replaceAll_from pat rep 0 s.

(** White space for [trim] (WhiteSpace and LineTerminator of the language):
    one byte for TAB, LF, VT, FF, CR and SPACE; *)
Definition ws1 (c : ascii) : bool :=
  let n := N_of_ascii c in
  ((9 <=? n) && (n <=? 13) || (n =? 32))%N.

(** two bytes for U+00A0; *)
Definition ws2 (a b : ascii) : bool :=
  ((N_of_ascii a =? 194) && (N_of_ascii b =? 160))%N.

(** three bytes for U+1680, U+2000..U+200A, U+2028, U+2029, U+202F, U+205F,
    U+3000 and U+FEFF. *)
Definition ws3 (a b c : ascii) : bool :=
  let x := N_of_ascii a in
  let y := N_of_ascii b in
  let z := N_of_ascii c in
  ((x =? 225) && (y =? 154) && (z =? 128)
   || (x =? 226) && (y =? 128)
      && ((128 <=? z) && (z <=? 138) || (z =? 168) || (z =? 169) || (z =? 175))
   || (x =? 226) && (y =? 129) && (z =? 159)
   || (x =? 227) && (y =? 128) && (z =? 128)
   || (x =? 239) && (y =? 187) && (z =? 191))%N.

Fixpoint trimStart (s : string) : string :=
  match s with
  | EmptyString => s
  | String a r1 =>
      if ws1 a then trimStart r1
      else match r1 with
           | EmptyString => s
           | String b r2 =>
               if ws2 a b then trimStart r2
               else match r2 with
                    | EmptyString => s
                    | String c r3 => if ws3 a b c then trimStart r3 else s
                    end
           end
  end.

(** A string made of white space only. *)
Definition blank (s : string) : bool :=
  match trimStart s with EmptyString => true | _ => false end.

(** [trimEnd] cuts at the first position from which only white space follows. *)
Fixpoint trimEnd (s : string) : string :=
  match s with
  | EmptyString => EmptyString
  | String c s' => if blank s then EmptyString else String c (trimEnd s')
  end.

(** [s.trim()]. *)
Definition trim (s : string) : string := trimEnd (trimStart s).

(** [parts.join("")]. *)
Definition join (parts : list string) : string := String.concat "" parts.

(** [hay.includes(needle)]; the handlers do not call it, the statements
    about what a prompt or a page contains do. *)
Fixpoint includes (hay needle : string) : bool :=
  if prefix needle hay then true
  else match hay with
       | EmptyString => false
       | String _ hay' => includes hay' needle
       end.

(** How many times [needle] occurs in [hay], overlaps counted. *)
Fixpoint occurrences (hay needle : string) : nat :=
  (if prefix needle hay then 1 else 0) +
  match hay with
  | EmptyString => 0
  | String _ hay' => occurrences hay' needle
  end.

Example indexOf_ex : indexOf "ab{c}d}" "{" = 2%Z /\ lastIndexOf "ab{c}d}" "}" = 6%Z
  /\ indexOf "abc" "{" = (-1)%Z /\ slice "ab{c}d}e" 2 7 = "{c}d}"
  /\ slice "abcdef" (-3) (-1) = "de"
  /\ replaceAll "a<b<<c" "<" "&lt;" = "a&lt;b&lt;&lt;c"
  /\ replaceAll "aaaa" "aa" "b" = "bb" /\ replaceAll "ab" "" "-" = "-a-b-"
  /\ trim (nl ++ "  a b " ++ nl) = "a b".
Proof. vm_compute. repeat split. Qed.

(** ** JS values, as [JSON.parse] builds them *)

(** A number is carried by the text [Number::toString] gives for it: the
    handlers only interpolate a number or test whether it is truthy, and both
    can be read off that text (zero, also negative zero, prints as 0). *)
Inductive JValue : Type :=
| JNull
| JBool (b : bool)
| JNumber (text : string)
| JString (s : string)
| JArray (items : list JValue)
| JObject (props : list (string * JValue)).

(** A variable or a property read: [None] is [undefined]. *)
Definition JsValue : Type := option JValue.

(** What the engine can throw while a handler runs. *)
Inductive Fault : Type :=
| ReadOfNullish (prop : string)     (* TypeError: property read on null/undefined *)
| NotAFunction (name : string)      (* TypeError: call of a method that is missing *)
| NotPrimitive                      (* TypeError: object without a usable toString *)
| InvalidJson (text : string)       (* SyntaxError of JSON.parse / r.json() *)
| Rejection (message : string).     (* fetch rejected with this message *)

Inductive Result (A : Type) : Type :=
| Ok (a : A)
| Throw (f : Fault).
Arguments Ok {A} a.
Arguments Throw {A} f.

Definition bind {A B : Type} (r : Result A) (k : A -> Result B) : Result B :=
  match r with
  | Ok a => k a
  | Throw f => Throw f
  end.

Notation "x <- r ;; k" := (bind r (fun x => k))
  (at level 61, r at next level, right associativity).

(** The builtins the handlers rely on. *)
Class Runtime : Type := {
  (** [JSON.parse(text)]; [None] when it throws a SyntaxError. *)
  JSON_parse : string -> option JValue;
  (** The [message] the engine gives an error of its own. *)
  engine_message : Fault -> string
}.

Definition message_of `{Runtime} (f : Fault) : string :=
  match f with
  | Rejection m => m
  | _ => engine_message f
  end.

(** Truthiness, as [!x] and [x || y] test it. *)
Definition truthy (v : JValue) : bool :=
  match v with
  | JNull => false
  | JBool b => b
  | JNumber text => negb ((text =? "0") || (text =? "NaN"))
  | JString s => negb (s =? "")
  | JArray _ | JObject _ => true
  end.

Definition truthy_js (x : JsValue) : bool :=
  match x with
  | None => false
  | Some v => truthy v
  end.

(** An object's own property. *)
Fixpoint own (props : list (string * JValue)) (key : string) : JsValue :=
  match props with
  | [] => None
  | (k, v) :: rest => if k =? key then Some v else own rest key
  end.

(** [v.key] for the property names the handlers read (src, tgt, style,
    choices, message, content, rows, summary, rules and the row fields): none of
    them is a builtin property of a string, a number, a boolean or an array, so
    on those the read gives [undefined]; on [null] it throws. *)
Definition get (v : JValue) (key : string) : Result JsValue :=
  match v with
  | JNull => Throw (ReadOfNullish key)
  | JObject props => Ok (own props key)
  | _ => Ok None
  end.

(** [x.key] where [x] may be [undefined]. *)
Definition get_js (x : JsValue) (key : string) : Result JsValue :=
  match x with
  | None => Throw (ReadOfNullish key)
  | Some v => get v key
  end.

(** [x?.key]. *)
Definition get_opt (x : JsValue) (key : string) : JsValue :=
  match x with
  | None | Some JNull => None
  | Some (JObject props) => own props key
  | Some _ => None
  end.

(** [v[0]]: the first element of an array, the first character of a string
    (here its first byte: the handlers go on to read a property of it, which a
    string of any content does not have), the property "0" of an object. *)
Definition first_of (v : JValue) : JsValue :=
  match v with
  | JArray (x :: _) => Some x
  | JString (String c _) => Some (JString (String c EmptyString))
  | JObject props => own props "0"
  | _ => None
  end.

(** [",".join] of already converted parts. *)
Fixpoint join_comma (parts : list string) : string :=
  match parts with
  | [] => ""
  | [p] => p
  | p :: rest => p ++ "," ++ join_comma rest
  end.

Fixpoint sequence {A : Type} (rs : list (Result A)) : Result (list A) :=
  match rs with
  | [] => Ok []
  | r :: rest => a <- r ;; l <- sequence rest ;; Ok (a :: l)
  end.

(** [ToString(v)], as a template literal applies it.  An array joins its
    elements with commas, [null] elements as empty text.  An object prints as
    [[object Object]] unless it has a property of its own named toString: a
    parsed value is never callable, the inherited [valueOf] returns the object,
    and the conversion throws. *)
Fixpoint to_string (v : JValue) : Result string :=
  match v with
  | JNull => Ok "null"
  | JBool true => Ok "true"
  | JBool false => Ok "false"
  | JNumber text => Ok text
  | JString s => Ok s
  | JArray items =>
      parts <- sequence
        (map (fun x => match x with JNull => Ok "" | _ => to_string x end) items) ;;
      Ok (join_comma parts)
  | JObject props =>
      match own props "toString" with
      | Some _ => Throw NotPrimitive
      | None => Ok "[object Object]"
      end
  end.

(** [x ?? ""] inside a template literal. *)
Definition text_or_empty (x : JsValue) : Result string :=
  match x with
  | None | Some JNull => Ok ""
  | Some v => to_string v
  end.

(** [x || ""], still a JS value. *)
Definition or_empty (x : JsValue) : JValue :=
  match x with
  | Some v => if truthy v then v else JString ""
  | None => JString ""
  end.

Example to_string_ex :
  to_string (JArray [JNumber "1"; JNull; JArray [JString "a"; JBool true]]) = Ok "1,,a,true"
  /\ to_string (JObject [("a", JNull)]) = Ok "[object Object]"
  /\ to_string (JArray [JObject [("toString", JNull)]]) = Throw NotPrimitive.
Proof. repeat split. Qed.

(** ** Requests, responses and the upstream call *)

(** The inbound request: its method, and its body as the platform parsed it
    ([None] when there is none). *)
Record Request : Type := {
  method : string;
  body : JsValue
}.

(** What [res.json] is given: [{ error }] or [{ html }]. *)
Inductive Payload : Type :=
| ErrorBody (error : string)
| HtmlBody (html : string).

Record Response : Type := {
  status : nat;
  payload : Payload
}.

(** [process.env]. *)
Record Env : Type := {
  OPENAI_API_KEY : option string
}.

Record ChatMessage : Type := {
  role : string;
  content : string
}.

(** The outbound call, with the JSON body still in fields. *)
Record FetchRequest : Type := {
  url : string;
  verb : string;
  authorization : string;
  content_type : string;
  model : string;
  messages : list ChatMessage;
  temperature : string;
  response_format : option string
}.

(** The upstream answer: [r.ok] and the body that [r.text()] or [r.json()] reads. *)
Record UpstreamReply : Type := {
  ok : bool;
  text : string
}.

Inductive FetchResult : Type :=
| Rejected (message : string)
| Replied (r : UpstreamReply).

(** A handler's run: it answers, or awaits one [fetch] and goes on. *)
Inductive Async (A : Type) : Type :=
| Return (a : A)
| Fetch (q : FetchRequest) (k : FetchResult -> Async A).
Arguments Return {A} a.
Arguments Fetch {A} q k.

(** Running a handler against an upstream that is a function of the outbound
    request: the answer and the calls made, in order. *)
Fixpoint run {A : Type} (api : FetchRequest -> FetchResult) (t : Async A)
  : A * list FetchRequest :=
  match t with
  | Return a => (a, [])
  | Fetch q k => let (a, calls) := run api (k (api q)) in (a, q :: calls)
  end.

Definition respond (code : nat) (p : Payload) : Response :=
  {| status := code; payload := p |}.

(** The outer [catch (err)]: 500 with [err.message || "Server error"]. *)
Definition server_error `{Runtime} (f : Fault) : Response :=
  let m := message_of f in
  respond 500 (ErrorBody (if m =? "" then "Server error" else m)).

(** [`Bearer ${process.env.OPENAI_API_KEY}`]. *)
Definition bearer (env : Env) : string :=
  "Bearer " ++ match OPENAI_API_KEY env with Some k => k | None => "undefined" end.

(** [const { src, tgt, style } = req.body || {}]: a falsy body counts as an
    empty object; a truthy body that is no object has none of the properties. *)
Definition field (req : Request) (key : string) : JsValue :=
  match body req with
  | Some (JObject props) => own props key
  | _ => None
  end.

(** [`${x}`] for a variable. *)
Definition interpolate (x : JsValue) : Result string :=
  match x with
  | None => Ok "undefined"
  | Some v => to_string v
  end.

(** The default style guide, the right operand of [style || `...`]. *)
Definition default_style : string :=
  "Tone: concise, friendly, product/help-center." ++ nl ++
  "Fixed terms: imToken, Passkey, Token Collections, Arbitrum." ++ nl ++
  "Prefer idiomatic English; avoid literal calques.".

(** [`${style || default_style}`]. *)
Definition style_text (style : JsValue) : Result string :=
  if truthy_js style then interpolate style else Ok default_style.

(** The text that ends up in the style-guide slot, as a relation: the
    default guide for a falsy [style], the conversion of [style] otherwise. *)
Definition guide_for (style : JsValue) (guide : string) : Prop :=
  if truthy_js style then interpolate style = Ok guide else guide = default_style.

(** ** Rendering (the same in both files) *)

(** [escapeHtml(s)] on a string (audit.js 129-136, part_000 98-105). *)
Definition escapeHtml (s : string) : string :=
  replaceAll
    (replaceAll
       (replaceAll
          (replaceAll
             (replaceAll s "&" "&amp;")
             "<" "&lt;")
          ">" "&gt;")
       dq "&quot;")
    "'" "&#39;".

(** A call [escapeHtml(x)] on whatever the parsed reply holds: [undefined]
    takes the default [""], and only a string has [replaceAll]. *)
Definition call_escapeHtml (x : JsValue) : Result string :=
  match x with
  | None => Ok (escapeHtml "")
  | Some (JString s) => Ok (escapeHtml s)
  | Some JNull => Throw (ReadOfNullish "replaceAll")
  | Some _ => Throw (NotAFunction "replaceAll")
  end.

(** [escapeHtml(row.key || "")]. *)
Definition escaped_field (row : JValue) (key : string) : Result string :=
  x <- get row key ;; call_escapeHtml (Some (or_empty x)).

Definition pre_open : string :=
  "<pre style=" ++ dq ++ "white-space:pre-wrap;margin:0" ++ dq ++ ">".

(** The row template, its seven holes filled. *)
Definition row_html (index source translation issues fix_ score severity : string) : string :=
  nl ++ "      <tr>" ++
  nl ++ "        <td>" ++ index ++ "</td>" ++
  nl ++ "        <td>" ++ pre_open ++ source ++ "</pre></td>" ++
  nl ++ "        <td>" ++ pre_open ++ translation ++ "</pre></td>" ++
  nl ++ "        <td>" ++ pre_open ++ issues ++ "</pre></td>" ++
  nl ++ "        <td>" ++ pre_open ++ fix_ ++ "</pre></td>" ++
  nl ++ "        <td>" ++ score ++ "</td>" ++
  nl ++ "        <td>" ++ severity ++ "</td>" ++
  nl ++ "      </tr>" ++
  nl ++ "    ".

(** The callback of [rows.map] (audit.js 95-105, part_000 65-75). *)
Definition render_row (row : JValue) : Result string :=
  i <- get row "index" ;;
  index <- text_or_empty i ;;
  source <- escaped_field row "source" ;;
  translation <- escaped_field row "translation" ;;
  issues <- escaped_field row "issues" ;;
  fix_ <- escaped_field row "fix" ;;
  score <- escaped_field row "score" ;;
  severity <- escaped_field row "severity" ;;
  Ok (row_html index source translation issues fix_ score severity).

(** [(x || []).map]: the elements to map over; a truthy [x] that is no array
    has no [map]. *)
Definition elements (x : JsValue) : Result (list JValue) :=
  match x with
  | Some (JArray items) => Ok items
  | Some v => if truthy v then Throw (NotAFunction "map") else Ok []
  | None => Ok []
  end.

(** [(parsed.rows || []).map(row => ...).join("")]. *)
Definition render_rows (parsed : JValue) : Result string :=
  rows <- get parsed "rows" ;;
  items <- elements rows ;;
  cells <- sequence (map render_row items) ;;
  Ok (join cells).

(** [(parsed.rules || []).map(x => `<li>${escapeHtml(x)}</li>`).join("")]. *)
Definition render_rules (parsed : JValue) : Result string :=
  rules <- get parsed "rules" ;;
  items <- elements rules ;;
  lis <- sequence
    (map (fun x => e <- call_escapeHtml (Some x) ;; Ok ("<li>" ++ e ++ "</li>")) items) ;;
  Ok (join lis).

(** The page around the rows; [header_cells] is the one line the two files
    break differently. *)
Definition page (header_cells rowsHtml summary rules : string) : string :=
  nl ++ "      <table>" ++
  nl ++ "        <thead>" ++
  nl ++ "          <tr>" ++
  nl ++ header_cells ++
  nl ++ "          </tr>" ++
  nl ++ "        </thead>" ++
  nl ++ "        <tbody>" ++ rowsHtml ++ "</tbody>" ++
  nl ++ "      </table>" ++
  nl ++ "      <h3>Summary</h3>" ++
  nl ++ "      <pre class=" ++ dq ++ "mono" ++ dq ++ ">" ++ summary ++ "</pre>" ++
  nl ++ "      <h3>Style Rules</h3>" ++
  nl ++ "      <ul>" ++ rules ++ "</ul>" ++
  nl ++ "    ".

(** From [parsed] to [html]: the rows first, then the summary and the rules
    as the page template reaches them. *)
Definition render (header_cells : string) (parsed : JValue) : Result string :=
  rowsHtml <- render_rows parsed ;;
  summary <- escaped_field parsed "summary" ;;
  rules <- render_rules parsed ;;
  Ok (page header_cells rowsHtml summary rules).

(** The tail both handlers share: render, answer 200, or fall into the outer
    [catch]. *)
Definition respond_parsed `{Runtime} (header_cells : string) (parsed : JValue) : Response :=
  match render header_cells parsed with
  | Ok html => respond 200 (HtmlBody html)
  | Throw f => server_error f
  end.

Definition parse_failure : Response :=
  respond 500 (ErrorBody "Failed to parse model JSON.").

(** [process.env.OPENAI_API_KEY] is truthy. *)
Definition configured (env : Env) : bool :=
  match OPENAI_API_KEY env with
  | Some k => negb (k =? "")
  | None => false
  end.

Definition completions_url : string := "https://api.openai.com/v1/chat/completions".

(** A quoted word of a prompt's JSON sample. *)
Definition quoted (s : string) : string := dq ++ s ++ dq.

(** ** src/api/audit.js *)

Module Audit.
Section Handler.
Context `{Runtime}.

Definition system : string :=
  "You are a senior bilingual editor and must return ONLY a JSON object." ++ nl ++
  "No markdown fences, no backticks, no commentary. Schema:" ++ nl ++
  "{" ++ nl ++
  "  " ++ quoted "rows" ++ ": [" ++ nl ++
  "    { " ++ quoted "index" ++ ": 1, " ++ quoted "source" ++ ": " ++ quoted "..." ++ ", "
         ++ quoted "translation" ++ ": " ++ quoted "..." ++ ", " ++ quoted "issues" ++ ": " ++ quoted "..." ++ "," ++ nl ++
  "      " ++ quoted "fix" ++ ": " ++ quoted "..." ++ ", " ++ quoted "score" ++ ": " ++ quoted "5/4/5" ++ ", "
         ++ quoted "severity" ++ ": " ++ quoted "minor" ++ " }" ++ nl ++
  "  ]," ++ nl ++
  "  " ++ quoted "summary" ++ ": " ++ quoted "..." ++ "," ++ nl ++
  "  " ++ quoted "rules" ++ ": [" ++ quoted "rule1" ++ "," ++ quoted "rule2" ++ "," ++ quoted "rule3" ++ "]" ++ nl ++
  "}".

(** The text of the user template up to the style guide, after it up to the
    source, and between source and translation. *)
Definition user_head : string :=
  nl ++
  "Audit the translation for accuracy, idiomaticity, and consistency." ++ nl ++
  "1) Split both texts into paragraphs by blank lines; align by order." ++ nl ++
  "2) For each pair, identify issues: mistranslation, missing info, unnatural phrasing," ++ nl ++
  "   term inconsistency, punctuation/format." ++ nl ++
  "3) Provide a corrected rewrite (concise, idiomatic, same meaning)." ++ nl ++
  "4) Score each pair: Accuracy/Idiomaticity/Consistency (1–5)." ++ nl ++
  "5) Mark severity: minor / moderate / critical." ++ nl ++
  nl ++
  "Style guide (customizable):" ++ nl.

Definition user_mid : string :=
  nl ++ nl ++ "Texts:" ++ nl ++ "SOURCE:" ++ nl.

Definition user_sep : string :=
  nl ++ nl ++ "TRANSLATION:" ++ nl.

Definition user_template (guide src tgt : string) : string :=
  user_head ++ guide ++ user_mid ++ src ++ user_sep ++ tgt ++ nl.

(** [const user = `...`.trim()] (lines 27-47): the holes are converted in the
    order the template reaches them. *)
Definition user (style src tgt : JsValue) : Result string :=
  guide <- style_text style ;;
  s <- interpolate src ;;
  t <- interpolate tgt ;;
  Ok (trim (user_template guide s t)).

(** The one upstream call (lines 49-65). *)
Definition chat_request (env : Env) (user_text : string) : FetchRequest :=
  {| url := completions_url;
     verb := "POST";
     authorization := bearer env;
     content_type := "application/json";
     model := "gpt-5";
     messages := [ {| role := "system"; content := system |};
                   {| role := "user"; content := user_text |} ];
     temperature := "0.2";
     response_format := Some "json_object" |}.

(** [json?.choices?.[0]?.message?.content?.trim() || ""] (line 73). *)
Definition reply_content (json : JValue) : Result string :=
  let choices := get_opt (Some json) "choices" in
  let first := match choices with
               | None | Some JNull => None
               | Some v => first_of v
               end in
  match get_opt (get_opt first "message") "content" with
  | None | Some JNull => Ok ""
  | Some (JString s) => Ok (trim s)
  | Some _ => Throw (NotAFunction "trim")
  end.

(** Lines 76-93: strict parse, then the brace scan; [None] stands for either
    of the two returns with the parse-failure answer. *)
Definition parse_reply (content : string) : option JValue :=
  match JSON_parse content with
  | Some parsed => Some parsed
  | None =>
      let start := indexOf content "{" in
      let end_ := lastIndexOf content "}" in
      if negb (start =? -1)%Z && negb (end_ =? -1)%Z && (end_ >? start)%Z
      then JSON_parse (slice content start (end_ + 1))
      else None
  end.

Definition header_cells : string :=
  "            <th>#</th><th>Source</th><th>Translation</th><th>Issues</th><th>Fix</th>" ++ nl ++
  "            <th>Acc/Idio/Cons</th><th>Severity</th>".

(** Everything after [await fetch(...)] (lines 67-123). *)
Definition after_fetch (r : FetchResult) : Response :=
  match r with
  | Rejected m => server_error (Rejection m)
  | Replied up =>
      if negb (ok up) then respond 500 (ErrorBody ("OpenAI error: " ++ text up))
      else match JSON_parse (text up) with
           | None => server_error (InvalidJson (text up))
           | Some json =>
               match reply_content json with
               | Throw f => server_error f
               | Ok content =>
                   match parse_reply content with
                   | None => parse_failure
                   | Some parsed => respond_parsed header_cells parsed
                   end
               end
           end
  end.

Definition handler (env : Env) (req : Request) : Async Response :=
  if negb (method req =? "POST") then
    Return (respond 405 (ErrorBody "Method not allowed"))
  else if negb (configured env) then
    Return (respond 500 (ErrorBody "Missing OPENAI_API_KEY"))
  else
    let src := field req "src" in
    let tgt := field req "tgt" in
    let style := field req "style" in
    if negb (truthy_js src) || negb (truthy_js tgt) then
      Return (respond 400 (ErrorBody "Missing source or translation"))
    else
      match user style src tgt with
      | Throw f => Return (server_error f)
      | Ok user_text =>
          Fetch (chat_request env user_text) (fun r => Return (after_fetch r))
      end.

End Handler.
End Audit.

(** ** src/unnamed/part_000 *)

Module Part000.
Section Handler.
Context `{Runtime}.

Definition prompt_head : string :=
  nl ++
  "You are a senior bilingual editor. Audit the translation for accuracy, idiomaticity, and consistency." ++ nl ++
  "1) Split both texts into paragraphs by blank lines; align by order." ++ nl ++
  "2) For each pair, identify issues: mistranslation, missing info, unnatural phrasing, term inconsistency, punctuation/format." ++ nl ++
  "3) Provide a corrected rewrite (concise, idiomatic, same meaning)." ++ nl ++
  "4) Score each pair: Accuracy/Idiomaticity/Consistency (1–5)." ++ nl ++
  "5) Mark severity: minor / moderate / critical." ++ nl ++
  "Style guide (customizable):" ++ nl.

Definition prompt_mid : string :=
  nl ++ nl ++
  "Return JSON with:" ++ nl ++
  "{" ++ nl ++
  "  " ++ quoted "rows" ++ ": [" ++ nl ++
  "    { " ++ quoted "index" ++ ": 1, " ++ quoted "source" ++ ": " ++ quoted "..." ++ ", "
         ++ quoted "translation" ++ ": " ++ quoted "..." ++ ", " ++ quoted "issues" ++ ": " ++ quoted "..." ++ ", "
         ++ quoted "fix" ++ ": " ++ quoted "..." ++ ", " ++ quoted "score" ++ ": " ++ quoted "5/4/5" ++ ", "
         ++ quoted "severity" ++ ": " ++ quoted "minor" ++ " }" ++ nl ++
  "  ]," ++ nl ++
  "  " ++ quoted "summary" ++ ": " ++ quoted "common issues summary" ++ "," ++ nl ++
  "  " ++ quoted "rules" ++ ": [" ++ quoted "rule1" ++ "," ++ quoted "rule2" ++ "," ++ quoted "rule3" ++ "]" ++ nl ++
  "}" ++ nl ++
  "Texts:" ++ nl ++ "SOURCE:" ++ nl.

Definition prompt_sep : string :=
  nl ++ nl ++ "TRANSLATION:" ++ nl.

Definition prompt_template (guide src tgt : string) : string :=
  prompt_head ++ guide ++ prompt_mid ++ src ++ prompt_sep ++ tgt ++ nl.

(** [const prompt = `...`] (lines 11-37); no [trim] here. *)
Definition prompt (style src tgt : JsValue) : Result string :=
  guide <- style_text style ;;
  s <- interpolate src ;;
  t <- interpolate tgt ;;
  Ok (prompt_template guide s t).

(** The one upstream call (lines 39-50): the credential goes into the header
    unchecked. *)
Definition chat_request (env : Env) (prompt_text : string) : FetchRequest :=
  {| url := completions_url;
     verb := "POST";
     authorization := bearer env;
     content_type := "application/json";
     model := "gpt-4o-mini";
     messages := [ {| role := "user"; content := prompt_text |} ];
     temperature := "0.2";
     response_format := None |}.

(** [json.choices[0].message.content] (line 60): every read on [null] or
    [undefined] throws. *)
Definition reply_content (json : JValue) : Result JsValue :=
  choices <- get json "choices" ;;
  first <- match choices with
           | None | Some JNull => Throw (ReadOfNullish "0")
           | Some v => Ok (first_of v)
           end ;;
  message <- get_js first "message" ;;
  get_js message "content".

(** Lines 58-63: the [try] covers the reads, the conversion of the argument
    to a string and the parse; [None] stands for the [catch]. *)
Definition parse_reply (json : JValue) : option JValue :=
  match (c <- reply_content json ;; interpolate c) with
  | Ok content => JSON_parse content
  | Throw _ => None
  end.

Definition header_cells : string :=
  "            <th>#</th><th>Source</th><th>Translation</th><th>Issues</th><th>Fix</th><th>Acc/Idio/Cons</th><th>Severity</th>".

(** Everything after [await fetch(...)] (lines 52-92). *)
Definition after_fetch (r : FetchResult) : Response :=
  match r with
  | Rejected m => server_error (Rejection m)
  | Replied up =>
      if negb (ok up) then respond 500 (ErrorBody ("OpenAI error: " ++ text up))
      else match JSON_parse (text up) with
           | None => server_error (InvalidJson (text up))
           | Some json =>
               match parse_reply json with
               | None => parse_failure
               | Some parsed => respond_parsed header_cells parsed
               end
           end
  end.

Definition handler (env : Env) (req : Request) : Async Response :=
  if negb (method req =? "POST") then
    Return (respond 405 (ErrorBody "Method not allowed"))
  else
    let src := field req "src" in
    let tgt := field req "tgt" in
    let style := field req "style" in
    if negb (truthy_js src) || negb (truthy_js tgt) then
      Return (respond 400 (ErrorBody "Missing source or translation"))
    else
      match prompt style src tgt with
      | Throw f => Return (server_error f)
      | Ok prompt_text =>
          Fetch (chat_request env prompt_text) (fun r => Return (after_fetch r))
      end.

End Handler.
End Part000.

(** ** The spec's side of the comparisons *)

(** "Each of the five characters is replaced by its HTML entity": one pass,
    character by character. *)
Definition entity_of (c : ascii) : string :=
  if (c =? "&")%char then "&amp;"
  else if (c =? "<")%char then "&lt;"
  else if (c =? ">")%char then "&gt;"
  else if (c =? "034")%char then "&quot;"
  else if (c =? "'")%char then "&#39;"
  else String c EmptyString.

Fixpoint expand (f : ascii -> string) (s : string) : string :=
  match s with
  | EmptyString => EmptyString
  | String c s' => f c ++ expand f s'
  end.

Definition entities (s : string) : string := expand entity_of s.

(** "The standard HTML entity decoding, which maps &amp;, &lt;, &gt;, &quot;,
    &#39; back to their characters": left to right, an entity read where one
    starts, any other character kept. *)
Definition named_entities : list (string * ascii) :=
  [ ("&amp;", "&"%char); ("&lt;", "<"%char); ("&gt;", ">"%char);
    ("&quot;", "034"%char); ("&#39;", "'"%char) ].

Fixpoint decode_from (skip : nat) (s : string) : string :=
  match s with
  | EmptyString => EmptyString
  | String c s' =>
      match skip with
      | S k => decode_from k s'
      | O =>
          match find (fun e => prefix (fst e) s) named_entities with
          | Some (name, ch) => String ch (decode_from (String.length name - 1) s')
          | None => String c (decode_from 0 s')
          end
      end
  end.

Definition decode_entities (s : string) : string := decode_from 0 s.

(** "The substring from the first { to the last }": what is left of the text
    once everything before the first [open] and everything after the last
    [close] is dropped. *)
Fixpoint from_first (open : ascii) (s : string) : string :=
  match s with
  | EmptyString => EmptyString
  | String c s' => if (c =? open)%char then s else from_first open s'
  end.

Fixpoint up_to_last (close : ascii) (s : string) : string :=
  match s with
  | EmptyString => EmptyString
  | String c s' =>
      match up_to_last close s' with
      | EmptyString => if (c =? close)%char then String c EmptyString else EmptyString
      | kept => String c kept
      end
  end.

Definition brace_span (s : string) : string :=
  up_to_last "}" (from_first "{" s).

(** "Contains a { before a }". *)
Definition brace_pair (s : string) : Prop :=
  exists a b c, s = a ++ "{" ++ b ++ "}" ++ c.

Example brace_span_ex :
  brace_span "Sure: {x{y}z} done } ok" = "{x{y}z} done }"
  /\ decode_entities "a &lt;b&gt; &amp;amp; &quot;&#39;" = "a <b> &amp; " ++ dq ++ "'"
  /\ entities "<&>" = "&lt;&amp;&gt;".
Proof. repeat split. Qed.


(** The text of a field of a record: the string it holds, the empty text when
    it is missing or holds no string. *)
Definition field_text (row : JValue) (key : string) : string :=
  match row with
  | JObject props =>
      match own props key with
      | Some (JString s) => s
      | _ => ""
      end
  | _ => ""
  end.

(** The six cells that go through [escapeHtml]. *)
Definition text_keys : list string :=
  ["source"; "translation"; "issues"; "fix"; "score"; "severity"].

(** A field that holds a string or is missing. *)
Definition text_or_missing (x : JsValue) : Prop :=
  x = None \/ exists s, x = Some (JString s).

(** A row as the schema has it: a record whose index is a number, a string or
    missing, and whose six text fields are strings or missing. *)
Definition report_row (row : JValue) : Prop :=
  exists props,
    row = JObject props
    /\ (text_or_missing (own props "index") \/ exists n, own props "index" = Some (JNumber n))
    /\ Forall (fun key => text_or_missing (own props key)) text_keys.

(** The text of such a row's index: a string as it is, a number by its
    digits, nothing when it is missing. *)
Definition index_cell (row : JValue) : string :=
  match row with
  | JObject props =>
      match own props "index" with
      | Some (JString s) => s
      | Some (JNumber n) => n
      | _ => ""
      end
  | _ => ""
  end.

(** The markup of the table, as the claims speak of it: a cell on a line of
    its own, the white-space preserving block inside a text cell, and a row
    of cells. *)
Definition td (inner : string) : string := nl ++ "        <td>" ++ inner ++ "</td>".

Definition pre (inner : string) : string :=
  "<pre style=" ++ dq ++ "white-space:pre-wrap;margin:0" ++ dq ++ ">" ++ inner ++ "</pre>".

Definition tr (cells : list string) : string :=
  nl ++ "      <tr>" ++ join cells ++ nl ++ "      </tr>" ++ nl ++ "    ".

(** The table row the claims describe: seven cells, the index as it is, every
    text cell with its five characters replaced by entities. *)
Definition table_row (row : JValue) : string :=
  tr [ td (index_cell row);
       td (pre (entities (field_text row "source")));
       td (pre (entities (field_text row "translation")));
       td (pre (entities (field_text row "issues")));
       td (pre (entities (field_text row "fix")));
       td (entities (field_text row "score"));
       td (entities (field_text row "severity")) ].

(** A rule as the page shows it: a list item, its five characters replaced
    by entities. *)
Definition rule_item (text_ : string) : string := "<li>" ++ entities text_ ++ "</li>".

(** The markup of the page around its three holes: what stands above the
    table body (the table's opening and its header row), between the table
    and the summary, between the summary and the rules, and below them. *)
Definition above_body (header_cells : string) : string :=
  nl ++ "      <table>" ++
  nl ++ "        <thead>" ++
  nl ++ "          <tr>" ++
  nl ++ header_cells ++
  nl ++ "          </tr>" ++
  nl ++ "        </thead>" ++
  nl ++ "        ".

Definition above_summary : string :=
  nl ++ "      </table>" ++
  nl ++ "      <h3>Summary</h3>" ++
  nl ++ "      ".

Definition summary_open : string := "<pre class=" ++ dq ++ "mono" ++ dq ++ ">".

Definition above_rules : string :=
  nl ++ "      <h3>Style Rules</h3>" ++
  nl ++ "      ".

Definition below_rules : string := nl ++ "    ".

(** ** Auxiliary notions of the proofs *)

(** One pass of [escapeHtml] seen on a single character. *)
Definition swap (c : ascii) (rep : string) (x : ascii) : string :=
  if (x =? c)%char then rep else String x "".

(** What stands before the first [c]. *)
Fixpoint before_first (c : ascii) (s : string) : string :=
  match s with
  | EmptyString => EmptyString
  | String x s' => if (x =? c)%char then EmptyString else String x (before_first c s')
  end.

(** An ASCII byte: never part of a multi-byte white space. *)
Definition low (c : ascii) : bool := (N_of_ascii c <? 128)%N.

(** ** A sample runtime, for the examples *)

Definition esc_q (s : string) : string := "\" ++ dq ++ s ++ "\" ++ dq.

(** A report of one row, as JSON text and as the value it parses to. *)
Definition sample_report_inner : string :=
  quoted "rows" ++ ":[{" ++ quoted "index" ++ ":" ++ quoted "<1>" ++ "," ++ quoted "source" ++ ":" ++ quoted "a<b"
    ++ "," ++ quoted "fix" ++ ":" ++ quoted "R&D" ++ "}]," ++ quoted "summary" ++ ":" ++ quoted "ok".

Definition sample_report_text : string := "{" ++ sample_report_inner ++ "}".

Definition sample_row : JValue :=
  JObject [("index", JString "<1>"); ("source", JString "a<b"); ("fix", JString "R&D")].

Definition sample_report : JValue :=
  JObject [("rows", JArray [sample_row]); ("summary", JString "ok")].





(** The same report with prose around it, and the upstream body carrying it. *)
Definition wrapped_content : string :=
  "Here is the audit: " ++ sample_report_text ++ " Hope this helps.".

Definition wrapped_body : string :=
  "{" ++ quoted "choices" ++ ":[{" ++ quoted "message" ++ ":{" ++ quoted "content" ++ ":" ++ dq ++
  "Here is the audit: {" ++ esc_q "rows" ++ ":[{" ++ esc_q "index" ++ ":" ++ esc_q "<1>" ++ ","
      ++ esc_q "source" ++ ":" ++ esc_q "a<b" ++ "," ++ esc_q "fix" ++ ":" ++ esc_q "R&D" ++ "}],"
      ++ esc_q "summary" ++ ":" ++ esc_q "ok" ++ "} Hope this helps." ++ dq ++ "}}]}".

Definition envelope (content_text : string) : JValue :=
  JObject [("choices", JArray [JObject [("message", JObject [("content", JString content_text)])]])].

(** A reply with no JSON in it. *)
Definition refusal_content : string := "I cannot audit this text.".

Definition refusal_body : string :=
  "{" ++ quoted "choices" ++ ":[{" ++ quoted "message" ++ ":{" ++ quoted "content" ++ ":" ++ quoted refusal_content ++ "}}]}".

(** [JSON.parse] on the texts of the examples: the four that are JSON parse
    to their values, every other text is rejected. *)
Definition sample_parse (s : string) : option JValue :=
  if s =? sample_report_text then Some sample_report
  else if s =? wrapped_body then Some (envelope wrapped_content)
  else if s =? refusal_body then Some (envelope refusal_content)
  else if s =? "{}" then Some (JObject [])
  else None.

Definition sample_message (f : Fault) : string :=
  match f with
  | ReadOfNullish p => "Cannot read properties of null (reading '" ++ p ++ "')"
  | NotAFunction n => n ++ " is not a function"
  | NotPrimitive => "Cannot convert object to primitive value"
  | InvalidJson _ => "Unexpected token in JSON"
  | Rejection m => m
  end.

Definition sample_runtime : Runtime :=
  {| JSON_parse := sample_parse; engine_message := sample_message |}.

(** Environments and requests of the examples. *)
Definition with_key : Env := {| OPENAI_API_KEY := Some "sk-test" |}.
Definition without_key : Env := {| OPENAI_API_KEY := None |}.

Definition post (fields : list (string * JValue)) : Request :=
  {| method := "POST"; body := Some (JObject fields) |}.

Definition greeting : Request :=
  post [("src", JString "Bonjour"); ("tgt", JString "Hello")].

Definition formal_greeting : Request :=
  post [("src", JString "Bonjour"); ("tgt", JString "Hello"); ("style", JString "Formal.")].

(** The same three fields in another order, with a field the handlers do not read. *)
Definition formal_greeting_reordered : Request :=
  post [("id", JNumber "7"); ("style", JString "Formal."); ("tgt", JString "Hello");
        ("src", JString "Bonjour")].

(** The user message audit.js sends for [greeting]. *)
Definition greeting_user_text : string :=
  trim (Audit.user_template default_style "Bonjour" "Hello").

(** An upstream that turns the call down, as it does for a credential it
    does not know. *)
Definition key_rejected : FetchRequest -> FetchResult :=
  fun _ => Replied {| ok := false; text := "Incorrect API key provided: undefined." |}.

(** An upstream that answers every call with the same body. *)
Definition answering (body_text : string) : FetchRequest -> FetchResult :=
  fun _ => Replied {| ok := true; text := body_text |}.

(** The head of the user message of audit.js once trimmed: [user_head]
    without its leading line break. *)
Definition user_lead : string := trimStart Audit.user_head.

(** ** Facts about strings *)

Section StringFacts.

Lemma append_assoc (a b c : string) : (a ++ b) ++ c = a ++ b ++ c.
Proof. induction a as [|x a IH]; simpl; [reflexivity | now rewrite IH]. Qed.

Lemma append_empty_r (a : string) : a ++ "" = a.
Proof. induction a as [|x a IH]; simpl; [reflexivity | now rewrite IH]. Qed.

Lemma length_append (a b : string) :
  String.length (a ++ b) = String.length a + String.length b.
Proof. induction a as [|x a IH]; simpl; [reflexivity | now rewrite IH]. Qed.

Lemma prefix_empty (s : string) : prefix "" s = true.
Proof. destruct s; reflexivity. Qed.

Lemma prefix_single (c x : ascii) (s : string) :
  prefix (String c "") (String x s) = (x =? c)%char.
Proof.
  simpl. destruct (ascii_dec c x) as [->|ne].
  - now rewrite prefix_empty, Ascii.eqb_refl.
  - symmetry. apply Ascii.eqb_neq. congruence.
Qed.

Lemma prefix_append (p s : string) : prefix p (p ++ s) = true.
Proof.
  induction p as [|x p IH]; simpl; [apply prefix_empty|].
  destruct (ascii_dec x x); [exact IH | congruence].
Qed.

(** *** replaceAll of one character is a character-wise expansion *)

Lemma replaceAll_single (c : ascii) (rep s : string) :
  replaceAll s (String c "") rep = expand (swap c rep) s.
Proof.
  unfold replaceAll.
  induction s as [|x s IH]; [reflexivity|].
  cbn [replaceAll_from expand String.length].
  rewrite prefix_single, IH. unfold swap.
  destruct (x =? c)%char; reflexivity.
Qed.

Lemma expand_append (f : ascii -> string) (a b : string) :
  expand f (a ++ b) = expand f a ++ expand f b.
Proof.
  induction a as [|x a IH]; simpl; [reflexivity|].
  now rewrite IH, append_assoc.
Qed.

Lemma expand_expand (f g : ascii -> string) (s : string) :
  expand g (expand f s) = expand (fun x => expand g (f x)) s.
Proof.
  induction s as [|x s IH]; simpl; [reflexivity|].
  now rewrite expand_append, IH.
Qed.

Lemma expand_ext (f g : ascii -> string) (s : string) :
  (forall x, f x = g x) -> expand f s = expand g s.
Proof.
  intros E. induction s as [|x s IH]; simpl; [reflexivity|].
  now rewrite E, IH.
Qed.

(** The five passes of [escapeHtml], seen on one character. *)
Lemma five_passes_on_char (x : ascii) :
  expand (swap "'" "&#39;")
    (expand (swap "034" "&quot;")
       (expand (swap ">" "&gt;")
          (expand (swap "<" "&lt;") (swap "&" "&amp;" x)))) = entity_of x.
Proof.
  destruct x as [[] [] [] [] [] [] [] []]; reflexivity.
Qed.

(** [escapeHtml], five replacements in a row, is the one-pass encoding: the
    later passes find none of their characters in the entities written by the
    earlier ones. *)
Lemma escapeHtml_entities (s : string) : escapeHtml s = entities s.
Proof.
  unfold escapeHtml, entities, dq.
  rewrite !replaceAll_single.
  induction s as [|x s IH]; [reflexivity|].
  cbn [expand].
  now rewrite !expand_append, five_passes_on_char, IH.
Qed.

(** *** Decoding undoes the encoding *)

Lemma decode_entity_of (c : ascii) (rest : string) :
  decode_from 0 (entity_of c ++ rest) = String c (decode_from 0 rest).
Proof.
  destruct c as [[] [] [] [] [] [] [] []]; cbn; rewrite ?prefix_empty; reflexivity.
Qed.

Lemma decode_entities_entities (s : string) : decode_entities (entities s) = s.
Proof.
  unfold decode_entities, entities.
  induction s as [|c s IH]; [reflexivity|].
  cbn [expand]. now rewrite decode_entity_of, IH.
Qed.

(** *** The brace scan *)

Lemma split_at_first (c : ascii) (s : string) :
  s = before_first c s ++ from_first c s.
Proof.
  induction s as [|x s IH]; [reflexivity|].
  simpl. destruct (x =? c)%char; [reflexivity|].
  simpl. now rewrite <- IH.
Qed.

Lemma from_first_head (c : ascii) (s : string) :
  from_first c s = "" \/ exists t, from_first c s = String c t.
Proof.
  induction s as [|x s IH]; [now left|].
  simpl. destruct (x =? c)%char eqn:E; [|exact IH].
  right. apply Ascii.eqb_eq in E. subst x. now exists s.
Qed.

(** What [indexOf] of one character returns, in terms of the split. *)
Lemma indexOf_single (c : ascii) (s : string) :
  indexOf s (String c "") =
  match from_first c s with
  | EmptyString => (-1)%Z
  | _ => Z.of_nat (String.length (before_first c s))
  end.
Proof.
  induction s as [|x s IH]; [reflexivity|].
  cbn [indexOf from_first before_first].
  rewrite prefix_single.
  destruct (x =? c)%char; [reflexivity|].
  rewrite IH.
  destruct (from_first c s); [reflexivity|].
  cbn [String.length].
  destruct (Z.eqb_spec (Z.of_nat (String.length (before_first c s))) (-1)); lia.
Qed.

(** What [lastIndexOf] of one character returns. *)
Lemma lastIndexOf_single (c : ascii) (s : string) :
  lastIndexOf s (String c "") = (Z.of_nat (String.length (up_to_last c s)) - 1)%Z.
Proof.
  induction s as [|x s IH]; [reflexivity|].
  cbn [lastIndexOf up_to_last].
  rewrite prefix_single, IH.
  destruct (up_to_last c s) as [|y kept].
  - simpl. destruct (x =? c)%char; reflexivity.
  - cbn [String.length].
    destruct (Z.eqb_spec (Z.of_nat (S (String.length kept)) - 1) (-1)); lia.
Qed.

Lemma up_to_last_is_prefix (c : ascii) (s : string) :
  exists rest, s = up_to_last c s ++ rest.
Proof.
  induction s as [|x s [rest IH]]; [now exists ""|].
  cbn [up_to_last].
  destruct (up_to_last c s) as [|y kept].
  - destruct (x =? c)%char; [now exists s | now exists (String x s)].
  - exists rest. cbn [append] in *. now rewrite <- IH.
Qed.

Lemma up_to_last_found (c : ascii) (a b : string) :
  up_to_last c (a ++ String c b) <> "".
Proof.
  induction a as [|x a IH]; cbn [append up_to_last].
  - destruct (up_to_last c b); [now rewrite Ascii.eqb_refl | discriminate].
  - destruct (up_to_last c (a ++ String c b)); [contradiction | discriminate].
Qed.

Lemma up_to_last_append (c : ascii) (a s : string) :
  up_to_last c s <> "" -> up_to_last c (a ++ s) = a ++ up_to_last c s.
Proof.
  intros NE. induction a as [|x a IH]; [reflexivity|].
  cbn [append up_to_last]. rewrite IH.
  destruct (a ++ up_to_last c s) eqn:E; [|reflexivity].
  destruct a; [contradiction | discriminate].
Qed.

Lemma from_first_keeps_later (c : ascii) (a r : string) :
  exists x, from_first c (a ++ String c r) = x ++ String c r.
Proof.
  induction a as [|y a [x IH]]; cbn [append from_first].
  - rewrite Ascii.eqb_refl. now exists "".
  - destruct (y =? c)%char; [now exists (String y a) | now exists x].
Qed.

Lemma substring_skip (a s : string) (m : nat) :
  substring (String.length a) m (a ++ s) = substring 0 m s.
Proof. induction a as [|x a IH]; [reflexivity | destruct m; exact IH]. Qed.

Lemma substring_take (u v : string) :
  substring 0 (String.length u) (u ++ v) = u.
Proof.
  induction u as [|x u IH]; [now destruct v|].
  simpl. now rewrite IH.
Qed.

(** The brace scan on a text with a [{] before a [}]: both searches succeed,
    the closing brace found lies after the opening one, and the slice is the
    span from the first [{] to the last [}]. *)
Lemma brace_scan_on_pair (s : string) :
  brace_pair s ->
  let start := indexOf s "{" in
  let end_ := lastIndexOf s "}" in
  start <> (-1)%Z /\ end_ <> (-1)%Z /\ (end_ > start)%Z
  /\ slice s start (end_ + 1) = brace_span s.
Proof.
  intros (a & b & c & E). cbn zeta.
  rewrite indexOf_single, lastIndexOf_single. unfold brace_span.
  destruct (from_first_keeps_later "{" a (b ++ "}" ++ c)) as [x Fx].
  change (a ++ "{" ++ b ++ "}" ++ c) with (a ++ String "{" (b ++ "}" ++ c)) in E.
  rewrite <- E in Fx. clear E a.
  pose proof (split_at_first "{" s) as Sp.
  destruct (from_first_head "{" s) as [F0 | [t Ft]].
  { rewrite F0 in Fx. destruct x; discriminate. }
  rewrite Ft in *.
  assert (Last : up_to_last "}" t <> "").
  { destruct x as [|y x]; cbn [append] in Fx.
    - injection Fx as ->. apply (up_to_last_found "}" b c).
    - injection Fx as _ ->.
      assert (Re : x ++ String "{" (b ++ String "}" c) = (x ++ String "{" b) ++ String "}" c)
        by (now rewrite append_assoc).
      cbn [append]. rewrite Re. apply up_to_last_found. }
  clear Fx x b c.
  remember (before_first "{" s) as B eqn:HB. clear HB. subst s.
  assert (Span : up_to_last "}" (String "{" t) = String "{" (up_to_last "}" t)).
  { cbn [up_to_last]. destruct (up_to_last "}" t); [contradiction | reflexivity]. }
  rewrite up_to_last_append by (rewrite Span; discriminate).
  rewrite Span, length_append.
  destruct (up_to_last_is_prefix "}" t) as [rest R].
  remember (up_to_last "}" t) as U eqn:HU. clear HU. subst t.
  cbn [String.length].
  assert (0 < String.length U) by (destruct U; [contradiction | simpl; lia]).
  repeat split; try lia.
  unfold slice, slice_bound.
  rewrite length_append. cbn [String.length]. rewrite length_append.
  set (n := String.length B). set (m := String.length U). set (k := String.length rest).
  repeat match goal with
         | |- context [(?u <? ?v)%Z] => destruct (Z.ltb_spec u v); try lia
         end.
  match goal with
  | |- substring ?i ?l _ = _ => replace i with n by lia; replace l with (S m) by lia
  end.
  subst n. rewrite substring_skip.
  change (String "{" (U ++ rest)) with (String "{" U ++ rest).
  apply (substring_take (String "{" U) rest).
Qed.

(** Conversely, when the scan's test passes, the text has a [{] before a [}]. *)
Lemma brace_scan_test_is_pair (s : string) :
  let start := indexOf s "{" in
  let end_ := lastIndexOf s "}" in
  start <> (-1)%Z -> end_ <> (-1)%Z -> (end_ > start)%Z -> brace_pair s.
Proof.
  cbn zeta. rewrite indexOf_single, lastIndexOf_single.
  intros S1 _ Gt.
  destruct (from_first_head "{" s) as [F0 | [t Ft]]; [now rewrite F0 in S1|].
  rewrite Ft in Gt.
  destruct (up_to_last_is_prefix "}" s) as [rest R].
  pose proof (split_at_first "{" s) as Sp. rewrite Ft in Sp.
  (* the last closing brace lies inside [t] *)
  assert (In_t : up_to_last "}" t <> "").
  { intros T0.
    assert (up_to_last "}" (String "{" t) = "") by (cbn [up_to_last]; now rewrite T0).
    assert (L : forall a u, up_to_last "}" u = "" ->
              String.length (up_to_last "}" (a ++ u)) <= String.length a).
    { intros a u U0. induction a as [|y a IH]; cbn [append up_to_last String.length].
      - rewrite U0. simpl. lia.
      - destruct (up_to_last "}" (a ++ u)) eqn:E.
        + destruct (y =? "}")%char; simpl; lia.
        + cbn [String.length] in *. lia. }
    specialize (L (before_first "{" s) (String "{" t) H).
    rewrite <- Sp in L. lia. }
  destruct (up_to_last_is_prefix "}" t) as [rest' R'].
  assert (Ends : exists b, up_to_last "}" t = b ++ "}").
  { clear -In_t. induction t as [|y t IH]; [contradiction|].
    cbn [up_to_last] in *.
    destruct (up_to_last "}" t) as [|z kept] eqn:E.
    - destruct (y =? "}")%char eqn:Y; [|contradiction].
      apply Ascii.eqb_eq in Y. subst y. now exists "".
    - destruct IH as [b Hb]; [discriminate|]. exists (String y b). simpl. now rewrite Hb. }
  destruct Ends as [b Hb].
  exists (before_first "{" s), b, rest'.
  rewrite Sp at 1. rewrite R' at 1. rewrite Hb.
  simpl. now rewrite append_assoc.
Qed.

(** *** includes *)

Lemma includes_middle (a g b : string) : includes (a ++ g ++ b) g = true.
Proof.
  induction a as [|x a IH]; cbn [append].
  - destruct (g ++ b) eqn:E; cbn [includes]; rewrite <- E, prefix_append; reflexivity.
  - cbn [includes]. rewrite IH. now destruct (prefix g (String x (a ++ g ++ b))).
Qed.

(** *** trim leaves what stands before an ASCII character that is no white space *)

Lemma ws2_high (a b : ascii) : ws2 a b = true -> low a = false /\ low b = false.
Proof.
  unfold ws2, low. rewrite andb_true_iff, !N.eqb_eq, !N.ltb_ge. lia.
Qed.

Lemma ws3_high (a b c : ascii) :
  ws3 a b c = true -> low a = false /\ low b = false /\ low c = false.
Proof.
  unfold ws3, low. cbn zeta.
  rewrite !orb_true_iff, !andb_true_iff, !orb_true_iff, !andb_true_iff,
    !N.eqb_eq, !N.leb_le, !N.ltb_ge.
  lia.
Qed.

(** A two- or three-byte test that involves a low byte fails. *)
Ltac not_white_space :=
  match goal with
  | |- ?test = false =>
      let E := fresh "E" in
      destruct test eqn:E; [exfalso | reflexivity];
      first [apply ws2_high in E | apply ws3_high in E];
      intuition congruence
  end.

Lemma trimStart_stops_at_low (c : ascii) (y : string) :
  low c = true -> ws1 c = false ->
  forall n x, String.length x <= n -> trimStart (x ++ String c y) <> "".
Proof.
  intros Lc Wc.
  assert (No2l : forall b, ws2 c b = false) by (intros; not_white_space).
  assert (No2r : forall a, ws2 a c = false) by (intros; not_white_space).
  assert (No3l : forall a b, ws3 c a b = false) by (intros; not_white_space).
  assert (No3m : forall a b, ws3 a c b = false) by (intros; not_white_space).
  assert (No3r : forall a b, ws3 a b c = false) by (intros; not_white_space).
  assert (Base : trimStart (String c y) <> "").
  { cbn [trimStart]. rewrite Wc.
    destruct y as [|b y]; [discriminate|]. rewrite No2l.
    destruct y as [|d y]; [discriminate|]. rewrite No3l. discriminate. }
  induction n as [n IH] using lt_wf_ind.
  intros x Len.
  destruct x as [|a x1]; [exact Base|].
  cbn [append trimStart String.length] in *.
  destruct (ws1 a); [apply (IH (String.length x1)); lia|].
  destruct x1 as [|b x2]; cbn [append String.length] in *.
  { rewrite No2r. destruct y as [|d y]; [discriminate|]. rewrite No3m. discriminate. }
  destruct (ws2 a b); [apply (IH (String.length x2)); lia|].
  destruct x2 as [|d x3]; cbn [append String.length] in *.
  { rewrite No3r. discriminate. }
  destruct (ws3 a b d); [apply (IH (String.length x3)); lia | discriminate].
Qed.

Lemma not_blank_before_low (c : ascii) (x y : string) :
  low c = true -> ws1 c = false -> blank (x ++ String c y) = false.
Proof.
  intros Lc Wc. unfold blank.
  pose proof (trimStart_stops_at_low c y Lc Wc (String.length x) x (le_n _)) as NE.
  now destruct (trimStart (x ++ String c y)).
Qed.

Lemma trimEnd_append_low (c : ascii) (a y : string) :
  low c = true -> ws1 c = false ->
  trimEnd (a ++ String c y) = a ++ trimEnd (String c y).
Proof.
  intros Lc Wc. induction a as [|h a IH]; [reflexivity|].
  cbn [append trimEnd].
  change (String h (a ++ String c y)) with (String h a ++ String c y).
  now rewrite not_blank_before_low, IH.
Qed.

End StringFacts.

(** ** The handlers, step by step *)

Section HandlerFacts.
Context `{Runtime}.

Lemma is_post (req : Request) : method req = "POST" -> (method req =? "POST") = true.
Proof. intros ->. reflexivity. Qed.

Lemma not_post (req : Request) : method req <> "POST" -> (method req =? "POST") = false.
Proof. apply String.eqb_neq. Qed.

(** audit.js checks the method, then the credential, then the body. *)
Lemma audit_method_guard (env : Env) (req : Request) :
  method req <> "POST" ->
  Audit.handler env req = Return (respond 405 (ErrorBody "Method not allowed")).
Proof. intros M. unfold Audit.handler. now rewrite (not_post req M). Qed.

Lemma audit_credential_guard (env : Env) (req : Request) :
  method req = "POST" -> configured env = false ->
  Audit.handler env req = Return (respond 500 (ErrorBody "Missing OPENAI_API_KEY")).
Proof. intros M C. unfold Audit.handler. now rewrite (is_post req M), C. Qed.

Lemma audit_body_guard (env : Env) (req : Request) :
  method req = "POST" -> configured env = true ->
  truthy_js (field req "src") = false \/ truthy_js (field req "tgt") = false ->
  Audit.handler env req = Return (respond 400 (ErrorBody "Missing source or translation")).
Proof.
  intros M C [F | F]; unfold Audit.handler; rewrite (is_post req M), C, F; cbn [negb orb].
  - reflexivity.
  - now rewrite orb_true_r.
Qed.

(** part_000 checks the method, then the body: the credential is never looked at. *)
Lemma part000_method_guard (env : Env) (req : Request) :
  method req <> "POST" ->
  Part000.handler env req = Return (respond 405 (ErrorBody "Method not allowed")).
Proof. intros M. unfold Part000.handler. now rewrite (not_post req M). Qed.

Lemma part000_body_guard (env : Env) (req : Request) :
  method req = "POST" ->
  truthy_js (field req "src") = false \/ truthy_js (field req "tgt") = false ->
  Part000.handler env req = Return (respond 400 (ErrorBody "Missing source or translation")).
Proof.
  intros M [F | F]; unfold Part000.handler; rewrite (is_post req M), F; cbn [negb orb].
  - reflexivity.
  - now rewrite orb_true_r.
Qed.

(** A run that reaches the upstream call: what was checked before, what is
    sent, and how the run goes on. *)
Lemma audit_reaches_fetch (env : Env) (req : Request) q k :
  Audit.handler env req = Fetch q k ->
  method req = "POST" /\ configured env = true
  /\ truthy_js (field req "src") = true /\ truthy_js (field req "tgt") = true
  /\ exists user_text,
       Audit.user (field req "style") (field req "src") (field req "tgt") = Ok user_text
       /\ q = Audit.chat_request env user_text
       /\ k = (fun r => Return (Audit.after_fetch r)).
Proof.
  unfold Audit.handler.
  destruct (String.eqb_spec (method req) "POST") as [M|M]; cbn [negb]; [|discriminate].
  destruct (configured env); cbn [negb]; [|discriminate].
  destruct (truthy_js (field req "src")); cbn [negb orb]; [|discriminate].
  destruct (truthy_js (field req "tgt")); cbn [negb]; [|discriminate].
  destruct (Audit.user _ _ _) as [u|f]; [|discriminate].
  intros E. injection E as <- <-. repeat split; trivial. now exists u.
Qed.

Lemma part000_reaches_fetch (env : Env) (req : Request) q k :
  Part000.handler env req = Fetch q k ->
  method req = "POST"
  /\ truthy_js (field req "src") = true /\ truthy_js (field req "tgt") = true
  /\ exists prompt_text,
       Part000.prompt (field req "style") (field req "src") (field req "tgt") = Ok prompt_text
       /\ q = Part000.chat_request env prompt_text
       /\ k = (fun r => Return (Part000.after_fetch r)).
Proof.
  unfold Part000.handler.
  destruct (String.eqb_spec (method req) "POST") as [M|M]; cbn [negb]; [|discriminate].
  destruct (truthy_js (field req "src")); cbn [negb orb]; [|discriminate].
  destruct (truthy_js (field req "tgt")); cbn [negb]; [|discriminate].
  destruct (Part000.prompt _ _ _) as [u|f]; [|discriminate].
  intros E. injection E as <- <-. repeat split; trivial. now exists u.
Qed.

(** Once the call is made, the answer is [after_fetch] of what came back, and
    the call is the only one. *)
Lemma audit_run_after_fetch (api : FetchRequest -> FetchResult) env req q k :
  Audit.handler env req = Fetch q k ->
  run api (Audit.handler env req) = (Audit.after_fetch (api q), [q]).
Proof.
  intros E. destruct (audit_reaches_fetch env req q k E) as (_ & _ & _ & _ & u & _ & _ & ->).
  now rewrite E.
Qed.

Lemma part000_run_after_fetch (api : FetchRequest -> FetchResult) env req q k :
  Part000.handler env req = Fetch q k ->
  run api (Part000.handler env req) = (Part000.after_fetch (api q), [q]).
Proof.
  intros E. destruct (part000_reaches_fetch env req q k E) as (_ & _ & _ & u & _ & _ & ->).
  now rewrite E.
Qed.

End HandlerFacts.

(** ** Rendering, row by row *)

Section RenderingFacts.

Lemma join_cons (a : string) (l : list string) : join (a :: l) = a ++ join l.
Proof.
  unfold join. destruct l as [|b l]; cbn [String.concat].
  - now rewrite append_empty_r.
  - reflexivity.
Qed.

(** The row template is seven cells between [<tr>] and [</tr>]. *)
Lemma row_html_markup (index c1 c2 c3 c4 c5 c6 : string) :
  row_html index c1 c2 c3 c4 c5 c6
  = tr [td index; td (pre c1); td (pre c2); td (pre c3); td (pre c4); td c5; td c6].
Proof.
  unfold row_html, tr, td, pre, pre_open, join. cbn [String.concat].
  rewrite !append_assoc. reflexivity.
Qed.




(** A text cell whose field is a string or missing. *)
Lemma escaped_field_of_text props key :
  text_or_missing (own props key) ->
  escaped_field (JObject props) key = Ok (entities (field_text (JObject props) key)).
Proof.
  unfold escaped_field, field_text. cbn [get bind].
  intros [-> | [s ->]]; [reflexivity|].
  cbn [or_empty truthy]. destruct (String.eqb_spec s "") as [->|_]; cbn [negb call_escapeHtml].
  - reflexivity.
  - now rewrite escapeHtml_entities.
Qed.

(** The index cell of a row of the schema. *)
Lemma index_of_report_row props :
  text_or_missing (own props "index") \/ (exists n, own props "index" = Some (JNumber n)) ->
  text_or_empty (own props "index") = Ok (index_cell (JObject props)).
Proof.
  unfold index_cell. now intros [[-> | [s ->]] | [n ->]].
Qed.

Lemma render_row_of_report_row (row : JValue) :
  report_row row -> render_row row = Ok (table_row row).
Proof.
  intros (props & -> & I & F). unfold render_row, table_row.
  cbn [get bind]. rewrite (index_of_report_row props I). cbn [bind].
  rewrite Forall_forall in F.
  rewrite !escaped_field_of_text by (apply F; cbn; auto 10).
  cbn [bind]. now rewrite row_html_markup.
Qed.

Lemma render_each_row (rows : list JValue) :
  Forall report_row rows ->
  sequence (map render_row rows) = Ok (map table_row rows).
Proof.
  induction 1 as [|row rows R _ IH]; [reflexivity|].
  cbn [map sequence]. now rewrite (render_row_of_report_row row R), IH.
Qed.




(** *** Counting the rows and the list items of a page *)

Lemma lacks_cons (c x : ascii) (s : string) :
  includes (String x s) (String c "") = false ->
  x <> c /\ includes s (String c "") = false.
Proof.
  cbn [includes]. rewrite prefix_single.
  destruct (Ascii.eqb_spec x c); [discriminate | now split].
Qed.

Lemma lacks_append (c : ascii) (a b : string) :
  includes a (String c "") = false -> includes b (String c "") = false ->
  includes (a ++ b) (String c "") = false.
Proof.
  intros A B. induction a as [|x a IH]; [exact B|].
  apply lacks_cons in A as [Ne A].
  cbn [append includes]. rewrite prefix_single, (IH A).
  now destruct (Ascii.eqb_spec x c).
Qed.

Lemma entities_lack_lt (s : string) : includes (entities s) "<" = false.
Proof.
  unfold entities. induction s as [|x s IH]; [reflexivity|].
  cbn [expand]. apply lacks_append; [|exact IH].
  destruct x as [[] [] [] [] [] [] [] []]; reflexivity.
Qed.

(** A text without [<] holds no start of a tag. *)
Lemma occurrences_skip_tag (tag x y : string) :
  includes x "<" = false ->
  occurrences (x ++ y) (String "<" tag) = occurrences y (String "<" tag).
Proof.
  intros L. induction x as [|a x IH]; [reflexivity|].
  apply lacks_cons in L as [Ne L].
  cbn [append occurrences prefix].
  destruct (ascii_dec "<" a) as [E|_]; [congruence|].
  now rewrite (IH L).
Qed.

Lemma occurrences_skip (x y : string) :
  includes x "<" = false -> occurrences (x ++ y) "<tr>" = occurrences y "<tr>".
Proof. apply occurrences_skip_tag. Qed.

Lemma row_html_has_one_tr (index c1 c2 c3 c4 c5 c6 rest : string) :
  includes index "<" = false ->
  includes c1 "<" = false -> includes c2 "<" = false -> includes c3 "<" = false ->
  includes c4 "<" = false -> includes c5 "<" = false -> includes c6 "<" = false ->
  occurrences (row_html index c1 c2 c3 c4 c5 c6 ++ rest) "<tr>"
  = S (occurrences rest "<tr>").
Proof.
  intros L0 L1 L2 L3 L4 L5 L6.
  unfold row_html, pre_open, nl, dq. rewrite !append_assoc.
  cbn. rewrite (occurrences_skip index _ L0).
  cbn. rewrite (occurrences_skip c1 _ L1).
  cbn. rewrite (occurrences_skip c2 _ L2).
  cbn. rewrite (occurrences_skip c3 _ L3).
  cbn. rewrite (occurrences_skip c4 _ L4).
  cbn. rewrite (occurrences_skip c5 _ L5).
  cbn. rewrite (occurrences_skip c6 _ L6).
  cbn. reflexivity.
Qed.

Lemma row_html_has_no_li (index c1 c2 c3 c4 c5 c6 rest : string) :
  includes index "<" = false ->
  includes c1 "<" = false -> includes c2 "<" = false -> includes c3 "<" = false ->
  includes c4 "<" = false -> includes c5 "<" = false -> includes c6 "<" = false ->
  occurrences (row_html index c1 c2 c3 c4 c5 c6 ++ rest) "<li>" = occurrences rest "<li>".
Proof.
  intros L0 L1 L2 L3 L4 L5 L6.
  unfold row_html, pre_open, nl, dq. rewrite !append_assoc.
  cbn. rewrite (occurrences_skip_tag "li>" index _ L0).
  cbn. rewrite (occurrences_skip_tag "li>" c1 _ L1).
  cbn. rewrite (occurrences_skip_tag "li>" c2 _ L2).
  cbn. rewrite (occurrences_skip_tag "li>" c3 _ L3).
  cbn. rewrite (occurrences_skip_tag "li>" c4 _ L4).
  cbn. rewrite (occurrences_skip_tag "li>" c5 _ L5).
  cbn. rewrite (occurrences_skip_tag "li>" c6 _ L6).
  cbn. reflexivity.
Qed.

(** A table row whose index holds no [<] is one [<tr>] and no list item. *)
Lemma table_row_has_one_tr (row : JValue) (rest : string) :
  includes (index_cell row) "<" = false ->
  occurrences (table_row row ++ rest) "<tr>" = S (occurrences rest "<tr>")
  /\ occurrences (table_row row ++ rest) "<li>" = occurrences rest "<li>".
Proof.
  intros L. unfold table_row. rewrite <- row_html_markup.
  split; [apply row_html_has_one_tr | apply row_html_has_no_li];
    auto using entities_lack_lt.
Qed.

Lemma table_rows_counted (rows : list JValue) (rest : string) :
  Forall (fun row => includes (index_cell row) "<" = false) rows ->
  occurrences (join (map table_row rows) ++ rest) "<tr>"
  = List.length rows + occurrences rest "<tr>"
  /\ occurrences (join (map table_row rows) ++ rest) "<li>" = occurrences rest "<li>".
Proof.
  induction 1 as [|row rows L _ [IH1 IH2]]; [now split|].
  cbn [map List.length]. rewrite join_cons, append_assoc.
  destruct (table_row_has_one_tr row (join (map table_row rows) ++ rest) L) as [-> ->].
  rewrite IH1, IH2. now split.
Qed.

(** The list items hold one [<li>] each and no [<tr>]. *)
Lemma rule_items_counted (texts : list string) (rest : string) :
  occurrences (join (map rule_item texts) ++ rest) "<tr>" = occurrences rest "<tr>"
  /\ occurrences (join (map rule_item texts) ++ rest) "<li>"
     = List.length texts + occurrences rest "<li>".
Proof.
  induction texts as [|t texts [IH1 IH2]]; [now split|].
  cbn [map List.length]. rewrite join_cons, append_assoc.
  remember (join (map rule_item texts) ++ rest) as tail eqn:T.
  unfold rule_item. rewrite !append_assoc.
  pose proof (entities_lack_lt t) as L.
  remember (entities t) as e eqn:E. clear E.
  split.
  - cbn. rewrite (occurrences_skip_tag "tr>" e _ L). cbn. exact IH1.
  - cbn. rewrite (occurrences_skip_tag "li>" e _ L), prefix_empty. cbn. now rewrite IH2.
Qed.

(** The page around its three holes. *)
Lemma page_holes (header body summary rules : string) :
  page header body summary rules
  = above_body header ++ "<tbody>" ++ body ++ "</tbody>"
      ++ above_summary ++ summary_open ++ summary ++ "</pre>"
      ++ above_rules ++ "<ul>" ++ rules ++ "</ul>" ++ below_rules.
Proof.
  unfold page, above_body, above_summary, summary_open, above_rules, below_rules.
  rewrite !append_assoc. reflexivity.
Qed.

(** In a page of either handler, the rows and the list items are those of
    the table body and of the rule list; the header has the one other row. *)
Lemma page_counted (header body summary rules : string) (n m : nat) :
  header = Audit.header_cells \/ header = Part000.header_cells ->
  (forall rest, occurrences (body ++ rest) "<tr>" = n + occurrences rest "<tr>"
                /\ occurrences (body ++ rest) "<li>" = occurrences rest "<li>") ->
  includes summary "<" = false ->
  (forall rest, occurrences (rules ++ rest) "<tr>" = occurrences rest "<tr>"
                /\ occurrences (rules ++ rest) "<li>" = m + occurrences rest "<li>") ->
  occurrences (page header body summary rules) "<tr>" = S n
  /\ occurrences (page header body summary rules) "<li>" = m.
Proof.
  intros Hd B L R. split.
  - rewrite page_holes.
    unfold above_body, above_summary, summary_open, above_rules, below_rules, nl, dq.
    destruct Hd as [-> | ->]; unfold Audit.header_cells, Part000.header_cells, nl;
      rewrite !append_assoc; cbn;
      match goal with |- context [occurrences (body ++ ?r) _] => rewrite (proj1 (B r)) end;
      cbn; rewrite (occurrences_skip_tag "tr>" summary _ L); cbn;
      match goal with |- context [occurrences (rules ++ ?r) _] => rewrite (proj1 (R r)) end;
      cbn; lia.
  - rewrite page_holes.
    unfold above_body, above_summary, summary_open, above_rules, below_rules, nl, dq.
    destruct Hd as [-> | ->]; unfold Audit.header_cells, Part000.header_cells, nl;
      rewrite !append_assoc; cbn;
      match goal with |- context [occurrences (body ++ ?r) _] => rewrite (proj2 (B r)) end;
      cbn; rewrite (occurrences_skip_tag "li>" summary _ L); cbn;
      match goal with |- context [occurrences (rules ++ ?r) _] => rewrite (proj2 (R r)) end;
      cbn; lia.
Qed.

End RenderingFacts.

(** ** The prompts *)

Section PromptFacts.

Lemma user_head_lead : Audit.user_head = nl ++ user_lead.
Proof. reflexivity. Qed.

(** [trim] on the user template of audit.js: the leading line break goes,
    and at the end nothing before the colon of [TRANSLATION:] can go. *)
Lemma trim_user_template (g s t : string) :
  trim (Audit.user_template g s t) =
  user_lead ++ g ++ Audit.user_mid ++ s ++ nl ++ nl ++ "TRANSLATION"
    ++ trimEnd (":" ++ nl ++ t ++ nl).
Proof.
  unfold trim, Audit.user_template.
  assert (Start : forall r, trimStart (Audit.user_head ++ r) = user_lead ++ r)
    by (intros r; vm_compute; reflexivity).
  rewrite Start.
  assert (Re : user_lead ++ g ++ Audit.user_mid ++ s ++ Audit.user_sep ++ t ++ nl =
               (user_lead ++ g ++ Audit.user_mid ++ s ++ nl ++ nl ++ "TRANSLATION")
                 ++ String ":" (nl ++ t ++ nl)).
  { rewrite !append_assoc. reflexivity. }
  rewrite Re, trimEnd_append_low by reflexivity.
  now rewrite !append_assoc.
Qed.

Lemma style_text_default (style : JsValue) :
  truthy_js style = false -> style_text style = Ok default_style.
Proof. unfold style_text. now intros ->. Qed.

Lemma style_text_given (style : JsValue) :
  truthy_js style = true -> style_text style = interpolate style.
Proof. unfold style_text. now intros ->. Qed.

Lemma style_text_guide (style : JsValue) (guide : string) :
  style_text style = Ok guide -> guide_for style guide.
Proof.
  unfold style_text, guide_for. destruct (truthy_js style); [trivial | now intros [= <-]].
Qed.

Lemma user_shape (style src tgt : JsValue) (u : string) :
  Audit.user style src tgt = Ok u ->
  exists guide s t,
    guide_for style guide /\ interpolate src = Ok s /\ interpolate tgt = Ok t
    /\ u = trim (Audit.user_template guide s t).
Proof.
  unfold Audit.user.
  destruct (style_text style) as [guide|] eqn:G; [|discriminate].
  destruct (interpolate src) as [s|]; [|discriminate].
  destruct (interpolate tgt) as [t|]; [|discriminate].
  cbn [bind]. intros [= <-]. exists guide, s, t. auto using style_text_guide.
Qed.

Lemma prompt_shape (style src tgt : JsValue) (p : string) :
  Part000.prompt style src tgt = Ok p ->
  exists guide s t,
    guide_for style guide /\ interpolate src = Ok s /\ interpolate tgt = Ok t
    /\ p = Part000.prompt_template guide s t.
Proof.
  unfold Part000.prompt.
  destruct (style_text style) as [guide|] eqn:G; [|discriminate].
  destruct (interpolate src) as [s|]; [|discriminate].
  destruct (interpolate tgt) as [t|]; [|discriminate].
  cbn [bind]. intros [= <-]. exists guide, s, t. auto using style_text_guide.
Qed.

End PromptFacts.

(** ** The claims *)

Section Claims.
Context `{Runtime}.

(** C8.  A request whose method is not POST is answered 405 with an error
    field, by both handlers; nothing else is looked at (the answer is the same
    for every environment and every body) and no upstream call is made. *)
Theorem other_methods_get_405 (api : FetchRequest -> FetchResult) (env : Env) (req : Request) :
  method req <> "POST" ->
  run api (Audit.handler env req) = (respond 405 (ErrorBody "Method not allowed"), [])
  /\ run api (Part000.handler env req) = (respond 405 (ErrorBody "Method not allowed"), []).
Proof.
  intros M. now rewrite (audit_method_guard env req M), (part000_method_guard env req M).
Qed.

(** C7, as amended.  A POST whose body lacks [src] or lacks [tgt] is answered
    400 with an error field and no upstream call: always by part_000, and by
    audit.js whenever the credential is configured.  audit.js checks the
    credential before the body, so without it the same request is answered
    500. *)
Theorem missing_text_gets_400 (api : FetchRequest -> FetchResult) (env : Env) (req : Request) :
  method req = "POST" ->
  field req "src" = None \/ field req "tgt" = None ->
  run api (Part000.handler env req)
    = (respond 400 (ErrorBody "Missing source or translation"), [])
  /\ (configured env = true ->
      run api (Audit.handler env req)
        = (respond 400 (ErrorBody "Missing source or translation"), []))
  /\ (configured env = false ->
      run api (Audit.handler env req)
        = (respond 500 (ErrorBody "Missing OPENAI_API_KEY"), [])).
Proof.
  intros M Lacks.
  assert (Falsy : truthy_js (field req "src") = false \/ truthy_js (field req "tgt") = false)
    by (destruct Lacks as [-> | ->]; [now left | now right]).
  repeat split.
  - now rewrite (part000_body_guard env req M Falsy).
  - intros C. now rewrite (audit_body_guard env req M C Falsy).
  - intros C. now rewrite (audit_credential_guard env req M C).
Qed.

(** C9.  Two requests with the same [src], [tgt] and [style] run against the
    same upstream function in the same environment: whenever both answers
    carry a rendered page, the two pages are the same string; and when the
    methods agree as well, the whole runs agree (status, payload and the calls
    made), whatever else the bodies hold. *)
Theorem same_inputs_same_answer (api : FetchRequest -> FetchResult) (env : Env)
    (r1 r2 : Request) :
  field r1 "src" = field r2 "src" ->
  field r1 "tgt" = field r2 "tgt" ->
  field r1 "style" = field r2 "style" ->
  (forall html1 html2,
     payload (fst (run api (Audit.handler env r1))) = HtmlBody html1 ->
     payload (fst (run api (Audit.handler env r2))) = HtmlBody html2 ->
     html1 = html2)
  /\ (forall html1 html2,
       payload (fst (run api (Part000.handler env r1))) = HtmlBody html1 ->
       payload (fst (run api (Part000.handler env r2))) = HtmlBody html2 ->
       html1 = html2)
  /\ (method r1 = method r2 ->
      run api (Audit.handler env r1) = run api (Audit.handler env r2)
      /\ run api (Part000.handler env r1) = run api (Part000.handler env r2)).
Proof.
  intros S T G.
  assert (Same : method r1 = method r2 ->
                 run api (Audit.handler env r1) = run api (Audit.handler env r2)
                 /\ run api (Part000.handler env r1) = run api (Part000.handler env r2)).
  { intros M. unfold Audit.handler, Part000.handler. now rewrite M, S, T, G. }
  split; [|split; [|exact Same]]; intros html1 html2 P1 P2.
  - destruct (String.eqb_spec (method r1) "POST") as [M1|M1];
      [|now rewrite (audit_method_guard env r1 M1) in P1].
    destruct (String.eqb_spec (method r2) "POST") as [M2|M2];
      [|now rewrite (audit_method_guard env r2 M2) in P2].
    destruct Same as [E _]; [congruence|]. rewrite E in P1. congruence.
  - destruct (String.eqb_spec (method r1) "POST") as [M1|M1];
      [|now rewrite (part000_method_guard env r1 M1) in P1].
    destruct (String.eqb_spec (method r2) "POST") as [M2|M2];
      [|now rewrite (part000_method_guard env r2 M2) in P2].
    destruct Same as [_ E]; [congruence|]. rewrite E in P1. congruence.
Qed.

(** C1.  When the strict parse of the reply's text fails and the text has a
    [{] before a [}], the brace scan of audit.js parses exactly the span from
    the first [{] to the last [}], so it yields what a direct [JSON.parse] of
    that span yields; and the handler's answer is the one built from that
    direct parse. *)
Theorem brace_scan_agrees_with_strict_parse (content : string) :
  JSON_parse content = None ->
  brace_pair content ->
  Audit.parse_reply content = JSON_parse (brace_span content)
  /\ forall api env req q k up json,
       Audit.handler env req = Fetch q k ->
       api q = Replied up -> ok up = true ->
       JSON_parse (text up) = Some json ->
       Audit.reply_content json = Ok content ->
       fst (run api (Audit.handler env req)) =
       match JSON_parse (brace_span content) with
       | Some parsed => respond_parsed Audit.header_cells parsed
       | None => parse_failure
       end.
Proof.
  intros Strict Pair.
  assert (Scan : Audit.parse_reply content = JSON_parse (brace_span content)).
  { unfold Audit.parse_reply. rewrite Strict.
    destruct (brace_scan_on_pair content Pair) as (S1 & S2 & Gt & Sl).
    cbn zeta in *. rewrite Sl.
    apply Z.eqb_neq in S1, S2. apply Z.gtb_gt in Gt.
    now rewrite S1, S2, Gt. }
  split; [exact Scan|].
  intros api env req q k up json Hh Hq Hok Hjson Hc.
  rewrite (audit_run_after_fetch api env req q k Hh), Hq.
  cbn [fst]. unfold Audit.after_fetch.
  now rewrite Hok, Hjson, Hc, Scan.
Qed.

(** C4.  When the reply's text holds no parseable JSON (the strict parse
    fails and, in audit.js, there is no brace pair or the span between the
    braces does not parse either), the handler answers 500 with the fixed
    message; the payload is the error alone, no page and no part of one. *)
Theorem unparseable_reply_gets_500 (api : FetchRequest -> FetchResult) (env : Env)
    (req : Request) q k up json :
  api q = Replied up -> ok up = true ->
  JSON_parse (text up) = Some json ->
  (Audit.handler env req = Fetch q k ->
   forall content,
     Audit.reply_content json = Ok content ->
     JSON_parse content = None ->
     ~ brace_pair content \/ JSON_parse (brace_span content) = None ->
     run api (Audit.handler env req)
       = (respond 500 (ErrorBody "Failed to parse model JSON."), [q]))
  /\ (Part000.handler env req = Fetch q k ->
      (forall content,
         (c <- Part000.reply_content json ;; interpolate c) = Ok content ->
         JSON_parse content = None) ->
      run api (Part000.handler env req)
        = (respond 500 (ErrorBody "Failed to parse model JSON."), [q])).
Proof.
  intros Hq Hok Hjson. split.
  - intros Hh content Hc Strict Scan.
    rewrite (audit_run_after_fetch api env req q k Hh), Hq.
    unfold Audit.after_fetch. rewrite Hok, Hjson, Hc. cbn [negb].
    replace (Audit.parse_reply content) with (@None JValue); [reflexivity|].
    unfold Audit.parse_reply. rewrite Strict.
    destruct (Z.eqb_spec (indexOf content "{") (-1)) as [|S1]; [reflexivity|].
    destruct (Z.eqb_spec (lastIndexOf content "}") (-1)) as [|S2]; [reflexivity|].
    destruct (Z.gtb_spec (lastIndexOf content "}") (indexOf content "{")) as [Gt|]; [|reflexivity].
    cbn [negb andb].
    assert (Pair : brace_pair content) by (apply brace_scan_test_is_pair; cbn zeta; lia).
    destruct Scan as [No | Fails]; [contradiction|].
    destruct (brace_scan_on_pair content Pair) as (_ & _ & _ & Sl).
    cbn zeta in Sl. now rewrite Sl, Fails.
  - intros Hh Fails.
    rewrite (part000_run_after_fetch api env req q k Hh), Hq.
    unfold Part000.after_fetch. rewrite Hok, Hjson. cbn [negb].
    replace (Part000.parse_reply json) with (@None JValue); [reflexivity|].
    unfold Part000.parse_reply.
    destruct (c <- Part000.reply_content json ;; interpolate c) as [content|f]; [|reflexivity].
    symmetry. now apply Fails.
Qed.


(** C6.  Decoding the five entities undoes [escapeHtml], on every string. *)
Theorem escape_then_decode (s : string) : decode_entities (escapeHtml s) = s.
Proof. rewrite escapeHtml_entities. apply decode_entities_entities. Qed.


(** C5, as amended.  In the prompt a handler sends upstream, the style-guide
    slot holds the default guide when [style] is omitted or falsy, and the text
    of the caller's value when that value is truthy; everything around the slot
    is the same in both cases.  The slot's text occurs in the prompt, and the
    fixed text of the templates holds no copy of the default guide. *)
Theorem style_fills_the_guide_slot (env : Env) (req : Request) q k :
  (Audit.handler env req = Fetch q k ->
   exists guide s t,
     guide_for (field req "style") guide
     /\ interpolate (field req "src") = Ok s
     /\ interpolate (field req "tgt") = Ok t
     /\ messages q =
          [ {| role := "system"; content := Audit.system |};
            {| role := "user"; content := trim (Audit.user_template guide s t) |} ]
     /\ trim (Audit.user_template guide s t) =
          user_lead ++ guide ++ Audit.user_mid ++ s ++ nl ++ nl ++ "TRANSLATION"
            ++ trimEnd (":" ++ nl ++ t ++ nl)
     /\ includes (trim (Audit.user_template guide s t)) guide = true)
  /\ (Part000.handler env req = Fetch q k ->
      exists guide s t,
        guide_for (field req "style") guide
        /\ interpolate (field req "src") = Ok s
        /\ interpolate (field req "tgt") = Ok t
        /\ messages q =
             [ {| role := "user"; content := Part000.prompt_template guide s t |} ]
        /\ includes (Part000.prompt_template guide s t) guide = true)
  /\ guide_for None default_style
  /\ (forall text, text <> "" -> guide_for (Some (JString text)) text)
  /\ includes (Audit.user_template "" "" "") default_style = false
  /\ includes (Part000.prompt_template "" "" "") default_style = false.
Proof.
  split; [|split; [|split; [|split; [|split]]]].
  - intros Hh.
    destruct (audit_reaches_fetch env req q k Hh) as (_ & _ & _ & _ & u & Hu & -> & _).
    destruct (user_shape _ _ _ _ Hu) as (guide & s & t & G & Hs & Ht & ->).
    exists guide, s, t. repeat (split; [assumption || reflexivity|]).
    split; [apply trim_user_template|].
    rewrite trim_user_template. apply includes_middle.
  - intros Hh.
    destruct (part000_reaches_fetch env req q k Hh) as (_ & _ & _ & p & Hp & -> & _).
    destruct (prompt_shape _ _ _ _ Hp) as (guide & s & t & G & Hs & Ht & ->).
    exists guide, s, t. repeat (split; [assumption || reflexivity|]).
    unfold Part000.prompt_template. apply includes_middle.
  - reflexivity.
  - intros text NE. unfold guide_for. cbn [truthy_js truthy interpolate to_string].
    now destruct (String.eqb_spec text "").
  - vm_compute. reflexivity.
  - vm_compute. reflexivity.
Qed.

(** The credential guard of audit.js (lines 7-9): a POST that arrives while
    the credential is missing or empty is answered 500 with the message that
    names it, whatever its body, and no upstream call is made.  part_000 has no
    such guard. *)
Theorem audit_missing_key_gets_500 (api : FetchRequest -> FetchResult) (env : Env)
    (req : Request) :
  method req = "POST" ->
  configured env = false ->
  run api (Audit.handler env req) = (respond 500 (ErrorBody "Missing OPENAI_API_KEY"), []).
Proof. intros M C. now rewrite (audit_credential_guard env req M C). Qed.

(** An upstream answer that is not a success is passed on as 500 with the
    upstream body after the words [OpenAI error: ], by both handlers, after the
    one call. *)
Theorem upstream_failure_gets_500 (api : FetchRequest -> FetchResult) (env : Env)
    (req : Request) q k up :
  api q = Replied up -> ok up = false ->
  (Audit.handler env req = Fetch q k ->
   run api (Audit.handler env req)
     = (respond 500 (ErrorBody ("OpenAI error: " ++ text up)), [q]))
  /\ (Part000.handler env req = Fetch q k ->
      run api (Part000.handler env req)
        = (respond 500 (ErrorBody ("OpenAI error: " ++ text up)), [q])).
Proof.
  intros Hq Hok. split; intros Hh.
  - rewrite (audit_run_after_fetch api env req q k Hh), Hq.
    unfold Audit.after_fetch. now rewrite Hok.
  - rewrite (part000_run_after_fetch api env req q k Hh), Hq.
    unfold Part000.after_fetch. now rewrite Hok.
Qed.

(** No run makes more than one upstream call. *)
Theorem at_most_one_upstream_call (api : FetchRequest -> FetchResult) (env : Env)
    (req : Request) :
  List.length (snd (run api (Audit.handler env req))) <= 1
  /\ List.length (snd (run api (Part000.handler env req))) <= 1.
Proof.
  split.
  - destruct (Audit.handler env req) as [r|q k] eqn:E; [simpl; lia|].
    rewrite <- E, (audit_run_after_fetch api env req q k E). simpl. lia.
  - destruct (Part000.handler env req) as [r|q k] eqn:E; [simpl; lia|].
    rewrite <- E, (part000_run_after_fetch api env req q k E). simpl. lia.
Qed.

End Claims.

(** ** The claims on concrete requests *)

Lemma get_request_gets_405 :
  let req := {| method := "GET"; body := body greeting |} in
  run (answering "{}") (@Audit.handler sample_runtime with_key req)
    = (respond 405 (ErrorBody "Method not allowed"), [])
  /\ run (answering "{}") (@Part000.handler sample_runtime with_key req)
    = (respond 405 (ErrorBody "Method not allowed"), []).
Proof.
  cbv zeta. apply (@other_methods_get_405 sample_runtime). simpl. discriminate.
Defined.

Lemma post_without_src_gets_400 :
  let req := post [("tgt", JString "Hello")] in
  run (answering "{}") (@Part000.handler sample_runtime with_key req)
    = (respond 400 (ErrorBody "Missing source or translation"), [])
  /\ run (answering "{}") (@Audit.handler sample_runtime with_key req)
    = (respond 400 (ErrorBody "Missing source or translation"), []).
Proof.
  cbv zeta.
  destruct (@missing_text_gets_400 sample_runtime (answering "{}") with_key
              (post [("tgt", JString "Hello")]) eq_refl (or_introl eq_refl))
    as (A & B & _).
  exact (conj A (B eq_refl)).
Defined.

(** C7, the claim as stated, fails on audit.js: a POST without [src] that
    arrives while the credential is missing is answered 500, not 400. *)
Lemma post_without_src_and_key_gets_500 :
  let req := post [("tgt", JString "Hello")] in
  let answer := fst (run (answering "{}") (@Audit.handler sample_runtime without_key req)) in
  method req = "POST" /\ field req "src" = None
  /\ answer = respond 500 (ErrorBody "Missing OPENAI_API_KEY")
  /\ status answer <> 400.
Proof. cbv zeta. repeat split. discriminate. Qed.

Lemma reordered_body_same_answer :
  run (answering wrapped_body) (@Audit.handler sample_runtime with_key formal_greeting)
    = run (answering wrapped_body)
        (@Audit.handler sample_runtime with_key formal_greeting_reordered)
  /\ run (answering wrapped_body) (@Part000.handler sample_runtime with_key formal_greeting)
    = run (answering wrapped_body)
        (@Part000.handler sample_runtime with_key formal_greeting_reordered).
Proof.
  exact (proj2 (proj2 (@same_inputs_same_answer sample_runtime (answering wrapped_body)
                         with_key formal_greeting formal_greeting_reordered
                         eq_refl eq_refl eq_refl))
           eq_refl).
Defined.

Lemma wrapped_content_has_pair : brace_pair wrapped_content.
Proof.
  exists "Here is the audit: ", sample_report_inner, " Hope this helps.". reflexivity.
Qed.

Lemma brace_scan_agrees_on_wrapped_reply :
  @Audit.parse_reply sample_runtime wrapped_content
    = @JSON_parse sample_runtime (brace_span wrapped_content)
  /\ fst (run (answering wrapped_body) (@Audit.handler sample_runtime with_key greeting))
    = @respond_parsed sample_runtime Audit.header_cells sample_report.
Proof.
  destruct (@brace_scan_agrees_with_strict_parse sample_runtime wrapped_content
              eq_refl wrapped_content_has_pair) as [Scan Answer].
  split; [exact Scan|].
  exact (Answer (answering wrapped_body) with_key greeting
           (@Audit.chat_request with_key greeting_user_text)
           (fun r => Return (@Audit.after_fetch sample_runtime r))
           {| ok := true; text := wrapped_body |} (envelope wrapped_content)
           eq_refl eq_refl eq_refl eq_refl eq_refl).
Defined.

Lemma refusal_has_no_pair : ~ brace_pair refusal_content.
Proof.
  intros P. destruct (brace_scan_on_pair refusal_content P) as [Found _].
  now apply Found.
Qed.

Lemma refusal_gets_500 :
  run (answering refusal_body) (@Audit.handler sample_runtime with_key greeting)
    = (respond 500 (ErrorBody "Failed to parse model JSON."),
       [@Audit.chat_request with_key greeting_user_text]).
Proof.
  apply (proj1 (@unparseable_reply_gets_500 sample_runtime (answering refusal_body) with_key
                  greeting (@Audit.chat_request with_key greeting_user_text)
                  (fun r => Return (@Audit.after_fetch sample_runtime r))
                  {| ok := true; text := refusal_body |} (envelope refusal_content)
                  eq_refl eq_refl eq_refl)
           eq_refl refusal_content eq_refl eq_refl (or_introl refusal_has_no_pair)).
Defined.




(** The request [formal_greeting] through audit.js: the user message holds
    the caller's guide and no default guide. *)
Lemma formal_style_fills_the_slot :
  exists sent k,
    @Audit.handler sample_runtime with_key formal_greeting = Fetch sent k
    /\ messages sent =
         [ {| role := "system"; content := Audit.system |};
           {| role := "user";
              content := trim (Audit.user_template "Formal." "Bonjour" "Hello") |} ]
    /\ includes (trim (Audit.user_template "Formal." "Bonjour" "Hello")) "Formal." = true
    /\ includes (trim (Audit.user_template "Formal." "Bonjour" "Hello")) default_style = false.
Proof.
  exists (Audit.chat_request with_key (trim (Audit.user_template "Formal." "Bonjour" "Hello"))),
         (fun r => Return (@Audit.after_fetch sample_runtime r)).
  destruct (proj1 (@style_fills_the_guide_slot sample_runtime with_key formal_greeting
                     (Audit.chat_request with_key
                        (trim (Audit.user_template "Formal." "Bonjour" "Hello")))
                     (fun r => Return (@Audit.after_fetch sample_runtime r)))
              eq_refl)
    as (guide & s & t & G & Hs & Ht & Sent & _ & Inc).
  injection Hs as <-. injection Ht as <-. injection G as <-.
  split; [reflexivity|]. split; [exact Sent|].
  split; [exact Inc | vm_compute; reflexivity].
Defined.

(** C5, the claim as stated, fails twice.  A caller who provides the empty
    string as [style] gets the default guide, in both files.  And a caller
    whose own text quotes the default guide finds it in the prompt, although
    the style given stands in the slot. *)
Lemma empty_style_keeps_default_guide :
  let req := post [("src", JString "Bonjour"); ("tgt", JString "Hello"); ("style", JString "")] in
  let quoting := post [("src", JString default_style); ("tgt", JString "Hello");
                       ("style", JString "Formal.")] in
  field req "style" = Some (JString "")
  /\ (exists p, Audit.user (field req "style") (field req "src") (field req "tgt") = Ok p
                /\ includes p default_style = true)
  /\ (exists p, Part000.prompt (field req "style") (field req "src") (field req "tgt") = Ok p
                /\ includes p default_style = true)
  /\ (exists p, Part000.prompt (field quoting "style") (field quoting "src")
                               (field quoting "tgt") = Ok p
                /\ includes p "Formal." = true
                /\ includes p default_style = true).
Proof.
  cbv zeta. split; [reflexivity|].
  split; [|split]; eexists; (split; [reflexivity|]); try split; vm_compute; reflexivity.
Qed.

(** C2 on part_000: with no credential in the environment the handler still
    makes the upstream call, with [Bearer undefined] as its authorization, and
    the answer is whatever the upstream's refusal leads to. *)
Lemma part000_calls_upstream_without_key :
  let sent := Part000.chat_request without_key
                (Part000.prompt_template default_style "Bonjour" "Hello") in
  configured without_key = false
  /\ run key_rejected (@Part000.handler sample_runtime without_key greeting)
     = (respond 500 (ErrorBody "OpenAI error: Incorrect API key provided: undefined."), [sent])
  /\ authorization sent = "Bearer undefined".
Proof. cbv zeta. repeat split. Qed.

Lemma greeting_without_key_gets_500 :
  run key_rejected (@Audit.handler sample_runtime without_key greeting)
    = (respond 500 (ErrorBody "Missing OPENAI_API_KEY"), []).
Proof.
  apply (@audit_missing_key_gets_500 sample_runtime); reflexivity.
Defined.

Lemma rejected_key_gets_500 :
  run key_rejected (@Audit.handler sample_runtime with_key greeting)
    = (respond 500 (ErrorBody "OpenAI error: Incorrect API key provided: undefined."),
       [Audit.chat_request with_key greeting_user_text]).
Proof.
  apply (proj1 (@upstream_failure_gets_500 sample_runtime key_rejected with_key greeting
                  (Audit.chat_request with_key greeting_user_text)
                  (fun r => Return (@Audit.after_fetch sample_runtime r))
                  {| ok := false; text := "Incorrect API key provided: undefined." |}
                  eq_refl eq_refl)
           eq_refl).
Defined.

Example escape_five :
  escapeHtml ("&<>" ++ dq ++ "'") = "&amp;&lt;&gt;&quot;&#39;"
  /\ decode_entities "&amp;&lt;&gt;&quot;&#39;" = "&<>" ++ dq ++ "'".
Proof. split; reflexivity. Qed.

(** The wrapped reply, end to end through audit.js: one row, the index as it
    came, the text cells escaped. *)
Example wrapped_reply_page :
  fst (run (answering wrapped_body) (@Audit.handler sample_runtime with_key greeting))
  = respond 200
      (HtmlBody (page Audit.header_cells
                   (row_html "<1>" "a&lt;b" "" "" "R&amp;D" "" "") "ok" "")).
Proof. vm_compute. reflexivity. Qed.

(** * Further properties of the code *)

(** ** escapeHtml (audit.js 129-136, part_000 98-105) *)

(** One of the five characters [escapeHtml] replaces. *)
Definition special (c : ascii) : bool :=
  ((c =? "&") || (c =? "<") || (c =? ">") || (c =? "034") || (c =? "'"))%char.

(** A text with none of the five. *)
Fixpoint plain (s : string) : bool :=
  match s with
  | EmptyString => true
  | String c s' => negb (special c) && plain s'
  end.

(** What a browser reads as text and nothing else: no [<], [>], double or
    single quote anywhere, and every [&] is the first character of one of the
    five entities. *)
Fixpoint inert (s : string) : bool :=
  match s with
  | EmptyString => true
  | String c s' =>
      (if (c =? "&")%char then existsb (fun e => prefix (fst e) s) named_entities
       else negb (special c))
      && inert s'
  end.

Section EscapeFacts.

Lemma inert_entity_of (c : ascii) (rest : string) :
  inert (entity_of c ++ rest) = inert rest.
Proof.
  destruct c as [[] [] [] [] [] [] [] []]; cbn; rewrite ?prefix_empty; reflexivity.
Qed.

Lemma length_entity_of (c : ascii) :
  1 <= String.length (entity_of c) <= 6
  /\ (special c = true -> 4 <= String.length (entity_of c))
  /\ (special c = false -> entity_of c = String c "").
Proof.
  destruct c as [[] [] [] [] [] [] [] []]; cbn; repeat split; intros; try lia; try discriminate.
Qed.

Lemma inert_lacks (c : ascii) (t : string) :
  special c = true -> c <> "&"%char -> inert t = true ->
  includes t (String c "") = false.
Proof.
  intros Sc Nc. induction t as [|x t IH]; [reflexivity|].
  cbn [inert includes]. rewrite prefix_single. intros I.
  apply andb_true_iff in I as [Hx It]. rewrite (IH It).
  destruct (Ascii.eqb_spec x c) as [->|_]; [|reflexivity].
  destruct (Ascii.eqb_spec c "&"); [contradiction|].
  now rewrite Sc in Hx.
Qed.

Lemma length_entities (s : string) :
  String.length s <= String.length (entities s) <= 6 * String.length s.
Proof.
  unfold entities. induction s as [|c s IH]; [simpl; lia|].
  cbn [expand String.length]. rewrite length_append.
  destruct (length_entity_of c) as (B & _). lia.
Qed.

Lemma entities_plain (s : string) : plain s = true -> entities s = s.
Proof.
  unfold entities. induction s as [|c s IH]; [reflexivity|].
  cbn [plain expand]. intros P. apply andb_true_iff in P as [C P].
  apply negb_true_iff in C.
  destruct (length_entity_of c) as (_ & _ & Id).
  now rewrite (Id C), (IH P).
Qed.

Lemma entities_grow (s : string) :
  plain s = false -> String.length s < String.length (entities s).
Proof.
  unfold entities. induction s as [|c s IH]; [discriminate|].
  cbn [plain expand String.length]. rewrite length_append. intros P.
  pose proof (length_entities s) as L. unfold entities in L.
  destruct (length_entity_of c) as (B & Sp & _).
  destruct (special c).
  - specialize (Sp eq_refl). lia.
  - cbn [negb andb] in P. specialize (IH P). lia.
Qed.

End EscapeFacts.

(** The output of [escapeHtml] is inert: whatever the input, none of the four
    characters [<], [>], double quote and single quote is left, and an
    ampersand only ever starts one of the five entities. *)
Theorem escapeHtml_output_is_inert (s : string) :
  inert (escapeHtml s) = true
  /\ includes (escapeHtml s) "<" = false
  /\ includes (escapeHtml s) ">" = false
  /\ includes (escapeHtml s) dq = false
  /\ includes (escapeHtml s) "'" = false.
Proof.
  assert (I : inert (escapeHtml s) = true).
  { rewrite escapeHtml_entities. unfold entities.
    induction s as [|c s IH]; [reflexivity|].
    cbn [expand]. now rewrite inert_entity_of. }
  split; [exact I|].
  repeat split; apply inert_lacks; trivial; discriminate.
Qed.

(** The five passes in a row never touch what an earlier pass wrote: the
    result is the one-pass substitution of each character by its entity.  In
    particular the ampersands of the entities are not escaped again. *)
Theorem escapeHtml_is_one_pass (s : string) :
  escapeHtml s = expand entity_of s.
Proof. exact (escapeHtml_entities s). Qed.

(** [escapeHtml] goes through concatenation: a text can be escaped piece by
    piece. *)
Theorem escapeHtml_append (a b : string) :
  escapeHtml (a ++ b) = escapeHtml a ++ escapeHtml b.
Proof. rewrite !escapeHtml_entities. apply expand_append. Qed.

(** [escapeHtml] leaves a text as it is exactly when the text has none of the
    five characters; so escaping twice differs from escaping once as soon as
    there was anything to escape. *)
Theorem escapeHtml_fixes_plain_text_only (s : string) :
  (escapeHtml s = s <-> plain s = true)
  /\ (escapeHtml (escapeHtml s) = escapeHtml s <-> plain s = true).
Proof.
  assert (Fix : forall t, escapeHtml t = t <-> plain t = true).
  { intros t. rewrite escapeHtml_entities. split.
    - intros E. destruct (plain t) eqn:P; [reflexivity|].
      pose proof (entities_grow t P) as G. rewrite E in G. lia.
    - apply entities_plain. }
  split; [apply Fix|].
  split.
  - intros E. apply Fix in E.
    destruct (plain s) eqn:P; [reflexivity|].
    (* the output of a text that is not plain holds an ampersand *)
    exfalso. clear Fix. rewrite escapeHtml_entities in E. unfold entities in E.
    induction s as [|c s IH]; [discriminate|].
    cbn [plain expand] in *.
    destruct (special c) eqn:C.
    + clear IH P. destruct c as [[] [] [] [] [] [] [] []]; try discriminate C; discriminate E.
    + cbn [negb andb] in P.
      destruct (length_entity_of c) as (_ & _ & Id). rewrite (Id C) in E.
      cbn [append plain] in E. rewrite C in E. cbn [negb andb] in E. auto.
  - intros P. apply Fix in P. now rewrite P.
Qed.

(** The escaped text is at least as long as the input and at most six times
    as long (the longest entity, [&quot;], has six characters). *)
Theorem escapeHtml_length (s : string) :
  String.length s <= String.length (escapeHtml s) <= 6 * String.length s.
Proof. rewrite escapeHtml_entities. apply length_entities. Qed.

(** ** The answers of the handlers *)

(** The two kinds of answer: a page with status 200, or an error with a
    message that is not empty. *)
Definition is_page (r : Response) : Prop :=
  exists html, r = respond 200 (HtmlBody html).

Definition is_error (code : nat) (r : Response) : Prop :=
  exists m, r = respond code (ErrorBody m) /\ m <> "".

(** A value that [!x] takes for missing: [undefined], [null], [false], zero,
    [NaN] or the empty string. *)
Definition falsy (x : JsValue) : Prop :=
  x = None \/ x = Some JNull \/ x = Some (JBool false)
  \/ x = Some (JNumber "0") \/ x = Some (JNumber "NaN") \/ x = Some (JString "").

Section AnswerFacts.
Context `{Runtime}.

Lemma server_error_is_error (f : Fault) : is_error 500 (server_error f).
Proof.
  unfold server_error, is_error. cbv zeta.
  destruct (String.eqb_spec (message_of f) "") as [E|NE].
  - exists "Server error". split; [reflexivity | discriminate].
  - now exists (message_of f).
Qed.

Lemma parse_failure_is_error : is_error 500 parse_failure.
Proof. exists "Failed to parse model JSON.". split; [reflexivity | discriminate]. Qed.

Lemma respond_parsed_cases (header : string) (parsed : JValue) :
  (exists html, render header parsed = Ok html
                /\ respond_parsed header parsed = respond 200 (HtmlBody html))
  \/ (exists f, render header parsed = Throw f
                /\ respond_parsed header parsed = server_error f).
Proof.
  unfold respond_parsed. destruct (render header parsed) as [html|f].
  - left. now exists html.
  - right. now exists f.
Qed.

Lemma error_is_no_page (code : nat) (r : Response) :
  code <> 200 -> is_error code r -> ~ is_page r.
Proof. intros NE (m & -> & _) (html & E). injection E as E. contradiction. Qed.

Lemma truthy_js_falsy (x : JsValue) : truthy_js x = false <-> falsy x.
Proof.
  unfold falsy. split.
  - destruct x as [[| [] | t | s | |]|]; cbn [truthy_js truthy]; try discriminate; auto 7.
    + intros E. apply negb_false_iff, orb_true_iff in E as [E|E];
        apply String.eqb_eq in E; subst t; auto 7.
    + intros E. apply negb_false_iff, String.eqb_eq in E. subst s. auto 7.
  - intros [-> | [-> | [-> | [-> | [-> | ->]]]]]; reflexivity.
Qed.

(** What audit.js answers before any upstream call. *)
Lemma audit_early_answer (env : Env) (req : Request) (r : Response) :
  Audit.handler env req = Return r ->
  is_error 405 r \/ is_error 500 r \/ is_error 400 r.
Proof.
  unfold Audit.handler.
  destruct (method req =? "POST"); cbn [negb].
  2:{ intros [= <-]. left. eexists. split; [reflexivity | discriminate]. }
  destruct (configured env); cbn [negb].
  2:{ intros [= <-]. right. left. eexists. split; [reflexivity | discriminate]. }
  destruct (negb (truthy_js (field req "src")) || negb (truthy_js (field req "tgt"))).
  { intros [= <-]. right. right. eexists. split; [reflexivity | discriminate]. }
  destruct (Audit.user _ _ _) as [u|f]; [discriminate|].
  intros [= <-]. right. left. apply server_error_is_error.
Qed.

Lemma part000_early_answer (env : Env) (req : Request) (r : Response) :
  Part000.handler env req = Return r ->
  is_error 405 r \/ is_error 500 r \/ is_error 400 r.
Proof.
  unfold Part000.handler.
  destruct (method req =? "POST"); cbn [negb].
  2:{ intros [= <-]. left. eexists. split; [reflexivity | discriminate]. }
  destruct (negb (truthy_js (field req "src")) || negb (truthy_js (field req "tgt"))).
  { intros [= <-]. right. right. eexists. split; [reflexivity | discriminate]. }
  destruct (Part000.prompt _ _ _) as [u|f]; [discriminate|].
  intros [= <-]. right. left. apply server_error_is_error.
Qed.

(** What the handlers answer once the upstream has been called: a page or a
    500, and a page only from an upstream success whose body is JSON. *)
Lemma audit_late_answer (r : FetchResult) :
  (is_page (Audit.after_fetch r)
   /\ exists up json content parsed html,
        r = Replied up /\ ok up = true /\ JSON_parse (text up) = Some json
        /\ Audit.reply_content json = Ok content
        /\ Audit.parse_reply content = Some parsed
        /\ render Audit.header_cells parsed = Ok html
        /\ Audit.after_fetch r = respond 200 (HtmlBody html))
  \/ is_error 500 (Audit.after_fetch r).
Proof.
  unfold Audit.after_fetch.
  destruct r as [m|up]; [right; apply server_error_is_error|].
  destruct (ok up) eqn:Ok_; cbn [negb].
  2:{ right. eexists. split; [reflexivity | discriminate]. }
  destruct (JSON_parse (text up)) as [json|] eqn:J; [|right; apply server_error_is_error].
  destruct (Audit.reply_content json) as [content|f] eqn:C; [|right; apply server_error_is_error].
  destruct (Audit.parse_reply content) as [parsed|] eqn:P; [|right; apply parse_failure_is_error].
  destruct (respond_parsed_cases Audit.header_cells parsed) as [(html & R & E) | (f & _ & E)];
    rewrite E.
  - left. split; [now exists html|].
    exists up, json, content, parsed, html. now repeat split.
  - right. apply server_error_is_error.
Qed.

Lemma part000_late_answer (r : FetchResult) :
  (is_page (Part000.after_fetch r)
   /\ exists up json parsed html,
        r = Replied up /\ ok up = true /\ JSON_parse (text up) = Some json
        /\ Part000.parse_reply json = Some parsed
        /\ render Part000.header_cells parsed = Ok html
        /\ Part000.after_fetch r = respond 200 (HtmlBody html))
  \/ is_error 500 (Part000.after_fetch r).
Proof.
  unfold Part000.after_fetch.
  destruct r as [m|up]; [right; apply server_error_is_error|].
  destruct (ok up) eqn:Ok_; cbn [negb].
  2:{ right. eexists. split; [reflexivity | discriminate]. }
  destruct (JSON_parse (text up)) as [json|] eqn:J; [|right; apply server_error_is_error].
  destruct (Part000.parse_reply json) as [parsed|] eqn:P; [|right; apply parse_failure_is_error].
  destruct (respond_parsed_cases Part000.header_cells parsed) as [(html & R & E) | (f & _ & E)];
    rewrite E.
  - left. split; [now exists html|].
    exists up, json, parsed, html. now repeat split.
  - right. apply server_error_is_error.
Qed.

(** When the reply's text gives a parsed value: by the strict parse, or in
    audit.js by the parse of the span between the braces. *)
Lemma audit_parse_reply_cases (content : string) (parsed : JValue) :
  Audit.parse_reply content = Some parsed <->
  JSON_parse content = Some parsed
  \/ (JSON_parse content = None /\ brace_pair content
      /\ JSON_parse (brace_span content) = Some parsed).
Proof.
  unfold Audit.parse_reply. destruct (JSON_parse content) as [p|] eqn:Strict.
  - split; [intros [= <-]; now left | intros [E | (E & _)]; congruence].
  - split.
    + intros P. right. split; [reflexivity|].
      destruct (Z.eqb_spec (indexOf content "{") (-1)) as [|S1]; [discriminate|].
      destruct (Z.eqb_spec (lastIndexOf content "}") (-1)) as [|S2]; [discriminate|].
      destruct (Z.gtb_spec (lastIndexOf content "}") (indexOf content "{")) as [Gt|];
        [|discriminate].
      cbn [negb andb] in P.
      assert (Pair : brace_pair content) by (apply brace_scan_test_is_pair; cbn zeta; lia).
      destruct (brace_scan_on_pair content Pair) as (_ & _ & _ & Sl). cbn zeta in Sl.
      split; [exact Pair|]. now rewrite <- Sl.
    + intros [E | (_ & Pair & Sp)]; [discriminate|].
      destruct (brace_scan_on_pair content Pair) as (S1 & S2 & Gt & Sl). cbn zeta in *.
      rewrite Sl. apply Z.eqb_neq in S1, S2. apply Z.gtb_gt in Gt. now rewrite S1, S2, Gt.
Qed.

Lemma part000_parse_reply_cases (json parsed : JValue) :
  Part000.parse_reply json = Some parsed <->
  exists content,
    (c <- Part000.reply_content json ;; interpolate c) = Ok content
    /\ JSON_parse content = Some parsed.
Proof.
  unfold Part000.parse_reply.
  destruct (c <- Part000.reply_content json ;; interpolate c) as [content|f].
  - split; [intros P; now exists content | intros (c' & [= <-] & P); exact P].
  - split; [discriminate | intros (c' & E & _); discriminate].
Qed.

Lemma error_500_is_no_page (r : Response) : is_error 500 r -> ~ is_page r.
Proof. apply error_is_no_page. discriminate. Qed.

Lemma audit_early_is_no_page (env : Env) (req : Request) (r : Response) :
  Audit.handler env req = Return r -> ~ is_page r.
Proof.
  intros E. destruct (audit_early_answer env req r E) as [A|[A|A]];
    revert A; apply error_is_no_page; discriminate.
Qed.

Lemma part000_early_is_no_page (env : Env) (req : Request) (r : Response) :
  Part000.handler env req = Return r -> ~ is_page r.
Proof.
  intros E. destruct (part000_early_answer env req r E) as [A|[A|A]];
    revert A; apply error_is_no_page; discriminate.
Qed.

End AnswerFacts.

Section Answers.
Context `{Runtime}.

(** Every run of either handler ends in a page with status 200 or in an error
    with status 400, 405 or 500 whose message is not empty; no other status is
    ever sent, and a page never comes with an error status. *)
Theorem every_answer_is_a_page_or_an_error (api : FetchRequest -> FetchResult)
    (env : Env) (req : Request) :
  (let r := fst (run api (Audit.handler env req)) in
   is_page r \/ is_error 400 r \/ is_error 405 r \/ is_error 500 r)
  /\ (let r := fst (run api (Part000.handler env req)) in
      is_page r \/ is_error 400 r \/ is_error 405 r \/ is_error 500 r).
Proof.
  cbv zeta. split.
  - destruct (Audit.handler env req) as [r|q k] eqn:E.
    + cbn [run fst]. destruct (audit_early_answer env req r E) as [?|[?|?]]; auto.
    + rewrite <- E, (audit_run_after_fetch api env req q k E). cbn [fst].
      destruct (audit_late_answer (api q)) as [[P _]|?]; auto.
  - destruct (Part000.handler env req) as [r|q k] eqn:E.
    + cbn [run fst]. destruct (part000_early_answer env req r E) as [?|[?|?]]; auto.
    + rewrite <- E, (part000_run_after_fetch api env req q k E). cbn [fst].
      destruct (part000_late_answer (api q)) as [[P _]|?]; auto.
Qed.

(** A page is answered exactly in this case: the request is a POST with
    truthy [src] and [tgt] (in audit.js: with the credential configured),
    exactly one upstream call was made and it succeeded with a JSON body, the
    text read from that body parses to a value (in part_000 by the strict
    parse; in audit.js by the strict parse or, when that fails and the text has
    a brace pair, by the parse of the span between the braces), and this value
    renders; the page is that rendering. *)
Theorem a_page_needs_one_successful_call (api : FetchRequest -> FetchResult)
    (env : Env) (req : Request) (html : string) :
  (fst (run api (Audit.handler env req)) = respond 200 (HtmlBody html) <->
   method req = "POST" /\ configured env = true
   /\ truthy_js (field req "src") = true /\ truthy_js (field req "tgt") = true
   /\ exists q up json content parsed,
        snd (run api (Audit.handler env req)) = [q]
        /\ api q = Replied up /\ ok up = true /\ JSON_parse (text up) = Some json
        /\ Audit.reply_content json = Ok content
        /\ (JSON_parse content = Some parsed
            \/ (JSON_parse content = None /\ brace_pair content
                /\ JSON_parse (brace_span content) = Some parsed))
        /\ render Audit.header_cells parsed = Ok html)
  /\ (fst (run api (Part000.handler env req)) = respond 200 (HtmlBody html) <->
      method req = "POST"
      /\ truthy_js (field req "src") = true /\ truthy_js (field req "tgt") = true
      /\ exists q up json content parsed,
           snd (run api (Part000.handler env req)) = [q]
           /\ api q = Replied up /\ ok up = true /\ JSON_parse (text up) = Some json
           /\ (c <- Part000.reply_content json ;; interpolate c) = Ok content
           /\ JSON_parse content = Some parsed
           /\ render Part000.header_cells parsed = Ok html).
Proof.
  split; split.
  - destruct (Audit.handler env req) as [r|q k] eqn:E.
    + cbn [run fst]. intros ->.
      destruct (audit_early_is_no_page env req _ E). now exists html.
    + rewrite <- E, (audit_run_after_fetch api env req q k E). cbn [fst snd]. intros P.
      destruct (audit_reaches_fetch env req q k E) as (M & C & S & T & _).
      repeat (split; [assumption|]).
      destruct (audit_late_answer (api q))
        as [[_ (up & json & content & parsed & html' & R & O & J & Rc & Pr & Rn & A)]|Err].
      * rewrite A in P. injection P as ->.
        exists q, up, json, content, parsed.
        apply audit_parse_reply_cases in Pr. now repeat split.
      * destruct (error_500_is_no_page _ Err). now exists html.
  - intros (M & C & S & T & q & up & json & content & parsed & Q & R & O & J & Rc & Pr & Rn).
    destruct (Audit.handler env req) as [r|q0 k] eqn:E; [discriminate|].
    rewrite <- E, (audit_run_after_fetch api env req q0 k E) in *. cbn [fst snd] in *.
    injection Q as ->. apply audit_parse_reply_cases in Pr.
    unfold Audit.after_fetch, respond_parsed. now rewrite R, O, J, Rc, Pr, Rn.
  - destruct (Part000.handler env req) as [r|q k] eqn:E.
    + cbn [run fst]. intros ->.
      destruct (part000_early_is_no_page env req _ E). now exists html.
    + rewrite <- E, (part000_run_after_fetch api env req q k E). cbn [fst snd]. intros P.
      destruct (part000_reaches_fetch env req q k E) as (M & S & T & _).
      repeat (split; [assumption|]).
      destruct (part000_late_answer (api q))
        as [[_ (up & json & parsed & html' & R & O & J & Pr & Rn & A)]|Err].
      * rewrite A in P. injection P as ->.
        apply part000_parse_reply_cases in Pr as (content & Rc & Pr).
        exists q, up, json, content, parsed. now repeat split.
      * destruct (error_500_is_no_page _ Err). now exists html.
  - intros (M & S & T & q & up & json & content & parsed & Q & R & O & J & Rc & Pr & Rn).
    destruct (Part000.handler env req) as [r|q0 k] eqn:E; [discriminate|].
    rewrite <- E, (part000_run_after_fetch api env req q0 k E) in *. cbn [fst snd] in *.
    injection Q as ->.
    assert (P : Part000.parse_reply json = Some parsed)
      by (apply part000_parse_reply_cases; now exists content).
    unfold Part000.after_fetch, respond_parsed. now rewrite R, O, J, P, Rn.
Qed.

(** For a POST (in audit.js: with the credential configured) the answer is
    400 exactly when [src] or [tgt] is falsy: missing, [null], [false], zero or
    the empty string.  Nothing else about the two fields is checked: any other
    value, of any type, passes. *)
Theorem falsy_text_gets_400_and_nothing_else (api : FetchRequest -> FetchResult)
    (env : Env) (req : Request) :
  method req = "POST" ->
  (is_error 400 (fst (run api (Part000.handler env req)))
   <-> falsy (field req "src") \/ falsy (field req "tgt"))
  /\ (configured env = true ->
      (is_error 400 (fst (run api (Audit.handler env req)))
       <-> falsy (field req "src") \/ falsy (field req "tgt"))).
Proof.
  intros M.
  assert (Not400 : forall r, is_page r \/ is_error 500 r -> ~ is_error 400 r).
  { intros r [(html & ->) | (m & -> & _)] (m' & E & _); discriminate. }
  rewrite <- !truthy_js_falsy.
  split; [|intros C]; split.
  - intros E400.
    destruct (truthy_js (field req "src")) eqn:S; [|now left].
    destruct (truthy_js (field req "tgt")) eqn:T; [|now right].
    exfalso. revert E400. apply Not400.
    destruct (Part000.handler env req) as [r|q k] eqn:E.
    + revert E. unfold Part000.handler. rewrite (is_post req M), S, T. cbn [negb orb].
      destruct (Part000.prompt _ _ _); [discriminate|].
      intros [= <-]. right. apply server_error_is_error.
    + rewrite <- E, (part000_run_after_fetch api env req q k E). cbn [fst].
      destruct (part000_late_answer (api q)) as [[P _]|?]; auto.
  - intros F. rewrite (part000_body_guard env req M F). cbn [run fst].
    eexists. split; [reflexivity | discriminate].
  - intros E400.
    destruct (truthy_js (field req "src")) eqn:S; [|now left].
    destruct (truthy_js (field req "tgt")) eqn:T; [|now right].
    exfalso. revert E400. apply Not400.
    destruct (Audit.handler env req) as [r|q k] eqn:E.
    + revert E. unfold Audit.handler. rewrite (is_post req M), C, S, T. cbn [negb orb].
      destruct (Audit.user _ _ _); [discriminate|].
      intros [= <-]. right. apply server_error_is_error.
    + rewrite <- E, (audit_run_after_fetch api env req q k E). cbn [fst].
      destruct (audit_late_answer (api q)) as [[P _]|?]; auto.
  - intros F. rewrite (audit_body_guard env req M C F). cbn [run fst].
    eexists. split; [reflexivity | discriminate].
Qed.

(** The outer [catch] after the call: a rejected [fetch] is answered 500 with
    the rejection's message, or [Server error] when that message is empty; an
    upstream success whose body is not JSON is answered 500 with the engine's
    message for the failed [r.json()], not with the parse-failure message. *)
Theorem trouble_after_the_call_gets_500 (api : FetchRequest -> FetchResult)
    (env : Env) (req : Request) q k :
  (Audit.handler env req = Fetch q k ->
   (forall m, api q = Rejected m ->
      run api (Audit.handler env req)
        = (respond 500 (ErrorBody (if m =? "" then "Server error" else m)), [q]))
   /\ (forall up, api q = Replied up -> ok up = true -> JSON_parse (text up) = None ->
         run api (Audit.handler env req) = (server_error (InvalidJson (text up)), [q])))
  /\ (Part000.handler env req = Fetch q k ->
      (forall m, api q = Rejected m ->
         run api (Part000.handler env req)
           = (respond 500 (ErrorBody (if m =? "" then "Server error" else m)), [q]))
      /\ (forall up, api q = Replied up -> ok up = true -> JSON_parse (text up) = None ->
            run api (Part000.handler env req) = (server_error (InvalidJson (text up)), [q]))).
Proof.
  split; intros E.
  - rewrite (audit_run_after_fetch api env req q k E). split.
    + now intros m ->.
    + intros up -> O J. unfold Audit.after_fetch. now rewrite O, J.
  - rewrite (part000_run_after_fetch api env req q k E). split.
    + now intros m ->.
    + intros up -> O J. unfold Part000.after_fetch. now rewrite O, J.
Qed.

End Answers.

(** ** Reading the reply (audit.js 73-93, part_000 58-63) *)

Section ReplyFacts.
Context `{Runtime}.

Lemma from_first_lacking (c : ascii) (pre r : string) :
  includes pre (String c "") = false ->
  from_first c (pre ++ String c r) = String c r.
Proof.
  intros L. induction pre as [|x pre IH]; cbn [append from_first].
  - now rewrite Ascii.eqb_refl.
  - apply lacks_cons in L as [Ne L].
    destruct (Ascii.eqb_spec x c); [contradiction | now apply IH].
Qed.

Lemma up_to_last_lacking (c : ascii) (s : string) :
  includes s (String c "") = false -> up_to_last c s = "".
Proof.
  induction s as [|x s IH]; [reflexivity|].
  intros L. apply lacks_cons in L as [Ne L].
  cbn [up_to_last]. rewrite (IH L).
  now destruct (Ascii.eqb_spec x c).
Qed.

Lemma brace_span_of_wrapped (pre inner post : string) :
  includes pre "{" = false -> includes post "}" = false ->
  brace_span (pre ++ "{" ++ inner ++ "}" ++ post) = "{" ++ inner ++ "}".
Proof.
  intros Lpre Lpost. unfold brace_span.
  change (pre ++ "{" ++ inner ++ "}" ++ post) with (pre ++ String "{" (inner ++ "}" ++ post)).
  rewrite (from_first_lacking "{" pre _ Lpre).
  change (String "{" (inner ++ "}" ++ post)) with (String "{" inner ++ String "}" post).
  assert (Close : up_to_last "}" (String "}" post) = "}").
  { cbn [up_to_last]. rewrite (up_to_last_lacking "}" post Lpost). reflexivity. }
  rewrite up_to_last_append; rewrite Close; [reflexivity | discriminate].
Qed.

End ReplyFacts.

Section Reply.
Context `{Runtime}.

(** The brace scan of audit.js recovers an object wrapped in prose or in a
    code fence: when the text before holds no [{] and the text after holds no
    [}], and the whole does not parse, the value is the parse of the object
    alone.  The span always runs to the last [}] of the reply. *)
Theorem brace_scan_recovers_wrapped_object (pre inner post : string) :
  includes pre "{" = false ->
  includes post "}" = false ->
  JSON_parse (pre ++ "{" ++ inner ++ "}" ++ post) = None ->
  Audit.parse_reply (pre ++ "{" ++ inner ++ "}" ++ post) = JSON_parse ("{" ++ inner ++ "}").
Proof.
  intros Lpre Lpost Strict.
  assert (Pair : brace_pair (pre ++ "{" ++ inner ++ "}" ++ post)) by (now exists pre, inner, post).
  destruct (brace_scan_on_pair _ Pair) as (S1 & S2 & Gt & Sl). cbn zeta in *.
  unfold Audit.parse_reply. rewrite Strict, Sl, (brace_span_of_wrapped pre inner post Lpre Lpost).
  apply Z.eqb_neq in S1, S2. apply Z.gtb_gt in Gt.
  now rewrite S1, S2, Gt.
Qed.

(** The two ways of reaching the reply's text agree where both succeed and
    differ where part_000 would throw: audit.js's optional chain gives the
    empty text wherever a read of part_000 hits [null] or [undefined], and the
    trimmed text wherever part_000 finds a string; on any other value its call
    of [trim] throws. *)
Theorem optional_chain_against_plain_reads (json : JValue) :
  match Part000.reply_content json with
  | Throw _ | Ok None | Ok (Some JNull) => Audit.reply_content json = Ok ""
  | Ok (Some (JString s)) => Audit.reply_content json = Ok (trim s)
  | Ok (Some _) => Audit.reply_content json = Throw (NotAFunction "trim")
  end.
Proof.
  unfold Part000.reply_content, Audit.reply_content.
  destruct json as [| | | | |props]; try reflexivity.
  cbn [get get_opt bind].
  destruct (own props "choices") as [choices|]; [|reflexivity].
  destruct choices as [| | | | |]; try reflexivity; cbn [bind];
    match goal with
    | |- context [first_of ?v] => destruct (first_of v) as [first|]; [|reflexivity]
    end;
    (destruct first as [| | | | |fp]; try reflexivity;
     cbn [get_js get get_opt bind];
     destruct (own fp "message") as [message|]; [|reflexivity];
     destruct message as [| | | | |mp]; try reflexivity;
     cbn [get_js get get_opt];
     destruct (own mp "content") as [[| | | | |]|]; reflexivity).
Qed.

End Reply.

(** ** Rendering beyond well-typed rows (audit.js 95-123, part_000 65-92) *)

(** A row that cannot be rendered: [null], or a record with a truthy value
    that is no string in one of its text cells (a number for the score, say). *)
Definition bad_row (row : JValue) : Prop :=
  row = JNull
  \/ exists props key v,
       row = JObject props /\ In key text_keys /\ own props key = Some v
       /\ truthy v = true /\ (forall s, v <> JString s).

(** A field that [x || ...] treats as missing. *)
Definition unusable (parsed : JValue) (key : string) : Prop :=
  match parsed with
  | JObject props => truthy_js (own props key) = false
  | _ => True
  end.

Section MoreRenderingFacts.

Lemma sequence_throws {A : Type} (rs : list (Result A)) (f : Fault) :
  In (Throw f) rs -> exists f', sequence rs = Throw f'.
Proof.
  induction rs as [|r rs IH]; [contradiction|].
  intros [-> | I]; cbn [sequence bind]; [now exists f|].
  destruct r as [a|g]; [|now exists g].
  destruct (IH I) as [f' ->]. now exists f'.
Qed.

Lemma escaped_field_of_bad_value props key v :
  own props key = Some v -> truthy v = true -> (forall s, v <> JString s) ->
  escaped_field (JObject props) key = Throw (NotAFunction "replaceAll").
Proof.
  intros O T N. unfold escaped_field. cbn [get bind]. rewrite O. cbn [or_empty]. rewrite T.
  destruct v; try reflexivity; try discriminate. now destruct (N s).
Qed.

Lemma bad_row_throws (row : JValue) : bad_row row -> exists f, render_row row = Throw f.
Proof.
  intros [-> | (props & key & v & -> & K & O & T & N)]; [now eexists|].
  pose proof (escaped_field_of_bad_value props key v O T N) as Bad.
  unfold render_row. cbn [get bind].
  destruct (text_or_empty (own props "index")) as [i|f]; [|now exists f]. cbn [bind].
  cbn [text_keys In] in K.
  destruct (escaped_field (JObject props) "source") as [c1|f] eqn:E1; [|now exists f]. cbn [bind].
  destruct (escaped_field (JObject props) "translation") as [c2|f] eqn:E2; [|now exists f]. cbn [bind].
  destruct (escaped_field (JObject props) "issues") as [c3|f] eqn:E3; [|now exists f]. cbn [bind].
  destruct (escaped_field (JObject props) "fix") as [c4|f] eqn:E4; [|now exists f]. cbn [bind].
  destruct (escaped_field (JObject props) "score") as [c5|f] eqn:E5; [|now exists f]. cbn [bind].
  destruct (escaped_field (JObject props) "severity") as [c6|f] eqn:E6; [|now exists f].
  exfalso. destruct K as [<-|[<-|[<-|[<-|[<-|[<-|[]]]]]]]; congruence.
Qed.

Lemma elements_of_unusable (x : JsValue) : truthy_js x = false -> elements x = Ok [].
Proof.
  destruct x as [v|]; [|reflexivity]. cbn [truthy_js elements].
  intros F. rewrite F. now destruct v.
Qed.

Lemma or_empty_of_unusable (x : JsValue) : truthy_js x = false -> or_empty x = JString "".
Proof.
  destruct x as [v|]; [|reflexivity]. cbn [truthy_js or_empty]. now intros ->.
Qed.

Lemma get_unusable (parsed : JValue) (key : string) :
  parsed <> JNull -> unusable parsed key ->
  exists x, get parsed key = Ok x /\ truthy_js x = false.
Proof.
  intros NN U. destruct parsed as [| | | | |props]; try (now exists None).
  now exists (own props key).
Qed.

Lemma render_rules_of_strings (parsed : JValue) (texts : list string) :
  get parsed "rules" = Ok (Some (JArray (map JString texts))) ->
  render_rules parsed = Ok (join (map rule_item texts)).
Proof.
  intros R. unfold render_rules. rewrite R. cbn [bind elements].
  assert (S : sequence
                (map (fun x => e <- call_escapeHtml (Some x) ;; Ok ("<li>" ++ e ++ "</li>"))
                     (map JString texts))
              = Ok (map rule_item texts)).
  { clear R. induction texts as [|t texts IH]; [reflexivity|].
    cbn [map sequence]. rewrite IH. cbn [call_escapeHtml bind]. unfold rule_item.
    now rewrite escapeHtml_entities. }
  now rewrite S.
Qed.

End MoreRenderingFacts.

Section Rendering.
Context `{Runtime}.

(** A reply that parses to anything but [null] and offers no usable [rows],
    [summary] or [rules] (they are missing or falsy, or the value is a string,
    a number, a boolean or an array) is answered 200 with the empty report:
    the shape of the parsed value is not checked. *)
Theorem shapeless_reply_gets_the_empty_page (header : string) (parsed : JValue) :
  parsed <> JNull ->
  unusable parsed "rows" -> unusable parsed "summary" -> unusable parsed "rules" ->
  render header parsed = Ok (page header "" "" "")
  /\ respond_parsed header parsed = respond 200 (HtmlBody (page header "" "" "")).
Proof.
  intros NN Ur Us Ul.
  assert (R : render header parsed = Ok (page header "" "" "")).
  { destruct (get_unusable parsed "rows" NN Ur) as (xr & Gr & Fr).
    destruct (get_unusable parsed "summary" NN Us) as (xs & Gs & Fs).
    destruct (get_unusable parsed "rules" NN Ul) as (xl & Gl & Fl).
    unfold render, render_rows, render_rules, escaped_field.
    rewrite Gr, Gs, Gl. cbn [bind].
    now rewrite (elements_of_unusable xr Fr), (elements_of_unusable xl Fl),
      (or_empty_of_unusable xs Fs). }
  split; [exact R|]. unfold respond_parsed. now rewrite R.
Qed.

(** Rendering is all or nothing: one row that is [null], or that holds a
    truthy value that is no string in a text cell, makes the whole request
    end in a 500 error; the rows that would render are not sent. *)
Theorem one_bad_row_fails_the_request (header : string) (parsed : JValue)
    (rows : list JValue) (row : JValue) :
  get parsed "rows" = Ok (Some (JArray rows)) ->
  In row rows ->
  bad_row row ->
  (exists f, render header parsed = Throw f
             /\ respond_parsed header parsed = server_error f)
  /\ is_error 500 (respond_parsed header parsed).
Proof.
  intros Rows I Bad.
  destruct (bad_row_throws row Bad) as [f Rf].
  destruct (sequence_throws (map render_row rows) f) as [f' Sf].
  { rewrite <- Rf. now apply in_map. }
  assert (R : render header parsed = Throw f').
  { unfold render, render_rows. rewrite Rows. cbn [bind elements]. now rewrite Sf. }
  assert (E : respond_parsed header parsed = server_error f')
    by (unfold respond_parsed; now rewrite R).
  split; [now exists f'|]. rewrite E. apply server_error_is_error.
Qed.

(** A report as the schema has it (rows whose index is a number or a string
    and holds no [<], and whose text fields are strings or missing; a summary
    that is a string or missing; rules that are strings) is answered 200 with
    this page: the table's opening with the header row; between [<tbody>] and
    [</tbody>] one table row per element, in the order of the list; the
    summary, escaped, in its block; the rules as list items, escaped, in their
    order.  The page has one [<tr>] per element besides the header's, and one
    [<li>] per rule. *)
Theorem well_typed_report_gets_its_page (header : string) (props : list (string * JValue))
    (rows : list JValue) (texts : list string) :
  header = Audit.header_cells \/ header = Part000.header_cells ->
  own props "rows" = Some (JArray rows) ->
  Forall report_row rows ->
  Forall (fun row => includes (index_cell row) "<" = false) rows ->
  text_or_missing (own props "summary") ->
  own props "rules" = Some (JArray (map JString texts)) ->
  exists html,
    respond_parsed header (JObject props) = respond 200 (HtmlBody html)
    /\ html = above_body header
                ++ "<tbody>" ++ join (map table_row rows) ++ "</tbody>"
                ++ above_summary
                ++ summary_open ++ entities (field_text (JObject props) "summary") ++ "</pre>"
                ++ above_rules
                ++ "<ul>" ++ join (map rule_item texts) ++ "</ul>"
                ++ below_rules
    /\ occurrences html "<tr>" = S (List.length rows)
    /\ occurrences html "<li>" = List.length texts.
Proof.
  intros Hd Rows Records Lacks Summary Rules.
  assert (Rr : render_rows (JObject props) = Ok (join (map table_row rows))).
  { unfold render_rows. cbn [get bind]. rewrite Rows. cbn [elements bind].
    now rewrite (render_each_row rows Records). }
  pose proof (escaped_field_of_text props "summary" Summary) as S.
  assert (Rl : render_rules (JObject props) = Ok (join (map rule_item texts)))
    by (apply render_rules_of_strings; cbn [get]; now rewrite Rules).
  destruct (page_counted header (join (map table_row rows))
              (entities (field_text (JObject props) "summary"))
              (join (map rule_item texts)) (List.length rows) (List.length texts) Hd)
    as (Trs & Lis).
  { intros rest. now apply table_rows_counted. }
  { apply entities_lack_lt. }
  { intros rest. apply rule_items_counted. }
  eexists. split; [|split; [|split; [exact Trs | exact Lis]]].
  - unfold respond_parsed, render. rewrite Rr, S, Rl. reflexivity.
  - apply page_holes.
Qed.

End Rendering.

(** ** The outbound call and its prompt (audit.js 16-65, part_000 11-50) *)

(** A two- or three-byte white-space test fails on a low byte. *)
Ltac low_byte_is_no_part :=
  match goal with
  | |- ?test = false =>
      let E := fresh "E" in
      destruct test eqn:E; [exfalso | reflexivity];
      first [apply ws2_high in E | apply ws3_high in E];
      intuition congruence
  end.

Section MorePromptFacts.

(** A trailing ASCII white space does not change whether a text is blank. *)
Lemma blank_before_white (c : ascii) :
  low c = true -> ws1 c = true ->
  forall n x, String.length x <= n -> blank (x ++ String c "") = blank x.
Proof.
  intros Lc Wc.
  assert (No2 : forall a, ws2 a c = false) by (intros; low_byte_is_no_part).
  assert (No3 : forall a b, ws3 a b c = false) by (intros; low_byte_is_no_part).
  unfold blank.
  induction n as [n IH] using lt_wf_ind.
  intros x Len.
  destruct x as [|a x1]; [cbn; now rewrite Wc|].
  cbn [append trimStart String.length] in *.
  destruct (ws1 a); [apply (IH (String.length x1)); lia|].
  destruct x1 as [|b x2]; cbn [append String.length] in *.
  { now rewrite No2. }
  destruct (ws2 a b); [apply (IH (String.length x2)); lia|].
  destruct x2 as [|d x3]; cbn [append String.length] in *.
  { now rewrite No3. }
  destruct (ws3 a b d); [apply (IH (String.length x3)); lia | reflexivity].
Qed.

Lemma trimEnd_before_white (c : ascii) (x : string) :
  low c = true -> ws1 c = true -> trimEnd (x ++ String c "") = trimEnd x.
Proof.
  intros Lc Wc. induction x as [|h x IH].
  - cbn. unfold blank. cbn. now rewrite Wc.
  - cbn [append trimEnd].
    change (String h (x ++ String c "")) with (String h x ++ String c "").
    now rewrite (blank_before_white c Lc Wc (String.length (String h x)) (String h x) (le_n _)), IH.
Qed.

Lemma trimEnd_translation (t : string) :
  trimEnd (":" ++ nl ++ t ++ nl) = ":" ++ (if blank t then "" else nl ++ trimEnd t).
Proof.
  unfold nl.
  replace (":" ++ String "010" "" ++ t ++ String "010" "")
    with (String ":" (String "010" t) ++ String "010" "")
    by reflexivity.
  rewrite (trimEnd_before_white "010" (String ":" (String "010" t))) by reflexivity.
  pose proof (not_blank_before_low ":" "" (String "010" t) eq_refl eq_refl) as NB.
  cbn [append] in NB. cbn [trimEnd]. rewrite NB.
  change (blank (String "010" t)) with (blank t).
  now destruct (blank t).
Qed.

(** [ToString] only ever fails in one way. *)
Lemma element_fault (x : JValue) (g : Fault) :
  match x with JNull => Ok "" | _ => to_string x end = Throw g -> to_string x = Throw g.
Proof. now destruct x. Qed.

Lemma to_string_fault : forall (v : JValue) (f : Fault),
  to_string v = Throw f -> f = NotPrimitive.
Proof.
  fix IH 1. intros v f. destruct v as [| [] | t | s | items | props]; cbn [to_string];
    try discriminate.
  - assert (Parts : forall f', sequence
              (map (fun x => match x with JNull => Ok "" | _ => to_string x end) items)
              = Throw f' -> f' = NotPrimitive).
    { revert items. fix IHitems 1. intros items f'.
      destruct items as [|x items]; [discriminate|].
      cbn [map sequence].
      destruct (match x with JNull => Ok "" | _ => to_string x end) as [p0|g0] eqn:E;
        cbn [bind].
      - destruct (sequence (map (fun x => match x with JNull => Ok "" | _ => to_string x end)
                              items)) as [ps|g] eqn:S; cbn [bind];
          [discriminate | intros [= <-]; exact (IHitems items g S)].
      - intros [= <-]. exact (IH x g0 (element_fault x g0 E)). }
    destruct (sequence _) as [ps|g] eqn:S; cbn [bind]; [discriminate|].
    intros [= <-]. exact (Parts g eq_refl).
  - destruct (own props "toString"); [now intros [= <-] | discriminate].
Qed.

Lemma interpolate_fault (x : JsValue) (f : Fault) :
  interpolate x = Throw f -> f = NotPrimitive.
Proof. destruct x as [v|]; [apply to_string_fault | discriminate]. Qed.

Lemma style_text_fault (style : JsValue) (f : Fault) :
  style_text style = Throw f -> f = NotPrimitive.
Proof.
  unfold style_text. destruct (truthy_js style); [apply interpolate_fault | discriminate].
Qed.

End MorePromptFacts.

Section Calls.
Context `{Runtime}.

(** Whenever audit.js calls upstream, the call carries a key that is
    configured and not empty, goes by POST to the completions URL with JSON
    content, and asks the model [gpt-5] at temperature 0.2 in JSON mode with
    the system message first and one user message after it.  part_000 sends
    whatever the environment holds, to the same URL, with one user message for
    [gpt-4o-mini] at the same temperature and no JSON mode. *)
Theorem the_call_that_is_made (env : Env) (req : Request) q k :
  (Audit.handler env req = Fetch q k ->
   (exists key, OPENAI_API_KEY env = Some key /\ key <> ""
                /\ authorization q = "Bearer " ++ key)
   /\ url q = completions_url /\ verb q = "POST" /\ content_type q = "application/json"
   /\ model q = "gpt-5" /\ temperature q = "0.2" /\ response_format q = Some "json_object"
   /\ exists user_text,
        messages q = [ {| role := "system"; content := Audit.system |};
                       {| role := "user"; content := user_text |} ])
  /\ (Part000.handler env req = Fetch q k ->
      authorization q = bearer env
      /\ url q = completions_url /\ verb q = "POST" /\ content_type q = "application/json"
      /\ model q = "gpt-4o-mini" /\ temperature q = "0.2" /\ response_format q = None
      /\ exists prompt_text, messages q = [ {| role := "user"; content := prompt_text |} ]).
Proof.
  split; intros E.
  - destruct (audit_reaches_fetch env req q k E) as (_ & C & _ & _ & u & _ & -> & _).
    split.
    + unfold configured in C. unfold Audit.chat_request, bearer. cbn [authorization].
      destruct (OPENAI_API_KEY env) as [key|]; [|discriminate].
      exists key. apply negb_true_iff, String.eqb_neq in C. now repeat split.
    + do 6 (split; [reflexivity|]). now exists u.
  - destruct (part000_reaches_fetch env req q k E) as (_ & _ & _ & p & _ & -> & _).
    do 7 (split; [reflexivity|]). now exists p.
Qed.

(** In audit.js the translation reaches the model without its trailing white
    space, and a translation of white space only, which passes the validation,
    does not reach it at all: the user message then ends with [TRANSLATION:]. *)
Theorem translation_is_sent_right_trimmed (env : Env) (req : Request) q k (t : string) :
  Audit.handler env req = Fetch q k ->
  field req "tgt" = Some (JString t) ->
  exists guide s,
    guide_for (field req "style") guide
    /\ interpolate (field req "src") = Ok s
    /\ messages q =
         [ {| role := "system"; content := Audit.system |};
           {| role := "user";
              content := user_lead ++ guide ++ Audit.user_mid ++ s ++ nl ++ nl
                           ++ "TRANSLATION:" ++ (if blank t then "" else nl ++ trimEnd t) |} ].
Proof.
  intros E T.
  destruct (audit_reaches_fetch env req q k E) as (_ & _ & _ & _ & u & Hu & -> & _).
  destruct (user_shape _ _ _ _ Hu) as (guide & s & t' & G & Hs & Ht & ->).
  rewrite T in Ht. injection Ht as <-.
  exists guide, s. repeat split; trivial.
  cbn [Audit.chat_request messages]. rewrite trim_user_template, trimEnd_translation.
  reflexivity.
Qed.

(** A truthy [style], [src] or [tgt] that cannot be converted to text (an
    object with a property of its own named toString, alone or inside an
    array) ends the request in the outer [catch]: 500 with the engine's
    message for the conversion, and no upstream call. *)
Theorem unconvertible_text_gets_500 (api : FetchRequest -> FetchResult)
    (env : Env) (req : Request) :
  method req = "POST" ->
  truthy_js (field req "src") = true ->
  truthy_js (field req "tgt") = true ->
  (exists f, style_text (field req "style") = Throw f
             \/ interpolate (field req "src") = Throw f
             \/ interpolate (field req "tgt") = Throw f) ->
  run api (Part000.handler env req) = (server_error NotPrimitive, [])
  /\ (configured env = true ->
      run api (Audit.handler env req) = (server_error NotPrimitive, [])).
Proof.
  intros M S T (f & Bad).
  assert (Conv : (g <- style_text (field req "style") ;;
                  s <- interpolate (field req "src") ;;
                  t <- interpolate (field req "tgt") ;; Ok (g, s, t))
                 = Throw NotPrimitive).
  { destruct (style_text (field req "style")) as [g|f1] eqn:E1; cbn [bind];
      [|now rewrite (style_text_fault _ _ E1)].
    destruct (interpolate (field req "src")) as [s|f2] eqn:E2; cbn [bind];
      [|now rewrite (interpolate_fault _ _ E2)].
    destruct (interpolate (field req "tgt")) as [t|f3] eqn:E3; cbn [bind];
      [|now rewrite (interpolate_fault _ _ E3)].
    destruct Bad as [B|[B|B]]; congruence. }
  assert (U : Audit.user (field req "style") (field req "src") (field req "tgt")
              = Throw NotPrimitive).
  { unfold Audit.user. revert Conv.
    destruct (style_text _); cbn [bind]; [|now intros [= ->]].
    destruct (interpolate (field req "src")); cbn [bind]; [|now intros [= ->]].
    destruct (interpolate (field req "tgt")); cbn [bind]; [discriminate | now intros [= ->]]. }
  assert (P : Part000.prompt (field req "style") (field req "src") (field req "tgt")
              = Throw NotPrimitive).
  { unfold Part000.prompt. revert Conv.
    destruct (style_text _); cbn [bind]; [|now intros [= ->]].
    destruct (interpolate (field req "src")); cbn [bind]; [|now intros [= ->]].
    destruct (interpolate (field req "tgt")); cbn [bind]; [discriminate | now intros [= ->]]. }
  split; [|intros C].
  - unfold Part000.handler. now rewrite (is_post req M), S, T, P.
  - unfold Audit.handler. now rewrite (is_post req M), C, S, T, U.
Qed.

End Calls.

(** ** The further properties on concrete requests *)

(** A POST whose translation is white space only, and one whose source is an
    object that cannot be converted to text. *)
Definition blank_translation : Request :=
  post [("src", JString "Bonjour"); ("tgt", JString "   ")].

Definition unconvertible_source : Request :=
  post [("src", JObject [("toString", JString "x")]); ("tgt", JString "Hello")].

Definition empty_source : Request :=
  post [("src", JString ""); ("tgt", JString "Hello")].

(** A report whose second row has a number for its score. *)
Definition numeric_score_report : JValue :=
  JObject [("rows", JArray [sample_row; JObject [("score", JNumber "5")]])].

(** A report as the schema has it: a row with a number for its index, a
    summary and two rules. *)
Definition numbered_row : JValue :=
  JObject [("index", JNumber "1"); ("source", JString "a<b"); ("fix", JString "R&D")].

Definition full_report_props : list (string * JValue) :=
  [("rows", JArray [numbered_row]); ("summary", JString "a & b");
   ("rules", JArray [JString "Use <b>"; JString "Keep it short"])].

(** A reply inside a code fence. *)
Definition fenced_content : string :=
  ("```json" ++ nl) ++ "{" ++ sample_report_inner ++ "}" ++ (nl ++ "```").

Lemma successful_run_was_a_configured_post :
  method greeting = "POST" /\ configured with_key = true
  /\ truthy_js (field greeting "src") = true /\ truthy_js (field greeting "tgt") = true
  /\ exists content parsed,
       @Audit.reply_content (envelope wrapped_content) = Ok content
       /\ sample_parse content = None
       /\ sample_parse (brace_span content) = Some parsed.
Proof.
  assert (P : exists html,
            fst (run (answering wrapped_body)
                   (@Audit.handler sample_runtime with_key greeting))
            = respond 200 (HtmlBody html)).
  { eexists. vm_compute. reflexivity. }
  destruct P as [html P].
  destruct (proj1 (proj1 (@a_page_needs_one_successful_call sample_runtime
                            (answering wrapped_body) with_key greeting html)) P)
    as (M & C & S & T & q & up & json & content & parsed & _ & R & _ & J & Rc & Pr & _).
  repeat (split; [assumption|]).
  injection R as <-.
  assert (E : Some json = Some (envelope wrapped_content))
    by (rewrite <- J; vm_compute; reflexivity).
  injection E as ->. exists content, parsed. split; [exact Rc|].
  destruct Pr as [Strict | (Strict & _ & Span)].
  - exfalso. vm_compute in Rc. injection Rc as <-. vm_compute in Strict. discriminate.
  - now split.
Defined.

Lemma empty_source_gets_400 :
  is_error 400 (fst (run (answering "{}") (@Part000.handler sample_runtime with_key empty_source)))
  /\ is_error 400 (fst (run (answering "{}") (@Audit.handler sample_runtime with_key empty_source))).
Proof.
  assert (F : falsy (field empty_source "src") \/ falsy (field empty_source "tgt")).
  { left. unfold falsy. cbn. auto 10. }
  destruct (@falsy_text_gets_400_and_nothing_else sample_runtime (answering "{}")
              with_key empty_source eq_refl) as [P A].
  split; [apply P | apply (A eq_refl)]; exact F.
Defined.

Lemma rejection_without_message_gets_server_error :
  run (fun _ => Rejected "") (@Audit.handler sample_runtime with_key greeting)
  = (respond 500 (ErrorBody "Server error"), [Audit.chat_request with_key greeting_user_text]).
Proof.
  exact (proj1 (proj1 (@trouble_after_the_call_gets_500 sample_runtime (fun _ => Rejected "")
                         with_key greeting (Audit.chat_request with_key greeting_user_text)
                         (fun r => Return (@Audit.after_fetch sample_runtime r)))
                  eq_refl)
           "" eq_refl).
Defined.

Lemma fenced_report_is_recovered :
  @Audit.parse_reply sample_runtime fenced_content = Some sample_report.
Proof.
  exact (@brace_scan_recovers_wrapped_object sample_runtime ("```json" ++ nl)
           sample_report_inner (nl ++ "```") eq_refl eq_refl eq_refl).
Defined.

Lemma string_reply_gets_the_empty_page :
  @respond_parsed sample_runtime Audit.header_cells (JString "hello")
  = respond 200 (HtmlBody (page Audit.header_cells "" "" "")).
Proof.
  refine (proj2 (@shapeless_reply_gets_the_empty_page sample_runtime Audit.header_cells
                   (JString "hello") _ I I I)).
  discriminate.
Defined.

Lemma numeric_score_fails_the_request :
  is_error 500 (@respond_parsed sample_runtime Audit.header_cells numeric_score_report).
Proof.
  refine (proj2 (@one_bad_row_fails_the_request sample_runtime Audit.header_cells
                   numeric_score_report
                   [sample_row; JObject [("score", JNumber "5")]]
                   (JObject [("score", JNumber "5")]) eq_refl _ _)).
  - cbn. auto.
  - right. exists [("score", JNumber "5")], "score", (JNumber "5").
    repeat split; [cbn; auto 10 | discriminate].
Defined.

Lemma numbered_row_is_a_report_row : Forall report_row [numbered_row].
Proof.
  constructor; [|constructor].
  exists [("index", JNumber "1"); ("source", JString "a<b"); ("fix", JString "R&D")].
  split; [reflexivity|]. split.
  - right. now exists "1".
  - unfold text_keys, text_or_missing.
    repeat (constructor; [cbn; eauto|]). constructor.
Qed.

Lemma full_report_gets_its_page :
  exists html,
    @respond_parsed sample_runtime Audit.header_cells (JObject full_report_props)
    = respond 200 (HtmlBody html)
    /\ occurrences html "<tr>" = 2
    /\ occurrences html "<li>" = 2
    /\ includes html "<td>1</td>" = true
    /\ includes html ("<td>" ++ pre "a&lt;b" ++ "</td>") = true
    /\ includes html (summary_open ++ "a &amp; b</pre>") = true
    /\ includes html "<ul><li>Use &lt;b&gt;</li><li>Keep it short</li></ul>" = true.
Proof.
  destruct (@well_typed_report_gets_its_page sample_runtime Audit.header_cells
              full_report_props [numbered_row] ["Use <b>"; "Keep it short"]
              (or_introl eq_refl) eq_refl numbered_row_is_a_report_row
              (Forall_cons numbered_row eq_refl (Forall_nil _))
              (or_intror (ex_intro _ "a & b" eq_refl)) eq_refl)
    as (html & E & _ & Tr & Li).
  exists html. split; [exact E|]. split; [exact Tr|]. split; [exact Li|].
  vm_compute in E. injection E as <-.
  repeat split; vm_compute; reflexivity.
Defined.

Lemma greeting_call_carries_the_key :
  authorization (Audit.chat_request with_key greeting_user_text) = "Bearer sk-test".
Proof.
  destruct (proj1 (proj1 (@the_call_that_is_made sample_runtime with_key greeting
                            (Audit.chat_request with_key greeting_user_text)
                            (fun r => Return (@Audit.after_fetch sample_runtime r)))
                     eq_refl))
    as (key & K & _ & A).
  injection K as <-. exact A.
Defined.

Lemma blank_translation_is_not_sent :
  exists guide s,
    guide_for None guide
    /\ interpolate (Some (JString "Bonjour")) = Ok s
    /\ messages (Audit.chat_request with_key
                   (trim (Audit.user_template default_style "Bonjour" "   ")))
       = [ {| role := "system"; content := Audit.system |};
           {| role := "user";
              content := user_lead ++ guide ++ Audit.user_mid ++ s ++ nl ++ nl
                           ++ "TRANSLATION:" |} ].
Proof.
  exact (@translation_is_sent_right_trimmed sample_runtime with_key blank_translation
           (Audit.chat_request with_key
              (trim (Audit.user_template default_style "Bonjour" "   ")))
           (fun r => Return (@Audit.after_fetch sample_runtime r))
           "   " eq_refl eq_refl).
Defined.

Lemma unconvertible_source_gets_500 :
  run (answering "{}") (@Part000.handler sample_runtime with_key unconvertible_source)
    = (@server_error sample_runtime NotPrimitive, [])
  /\ run (answering "{}") (@Audit.handler sample_runtime with_key unconvertible_source)
    = (@server_error sample_runtime NotPrimitive, []).
Proof.
  destruct (@unconvertible_text_gets_500 sample_runtime (answering "{}") with_key
              unconvertible_source eq_refl eq_refl eq_refl
              (ex_intro _ NotPrimitive (or_intror (or_introl eq_refl))))
    as [P A].
  exact (conj P (A eq_refl)).
Defined.
